(** * regols language-server core: module store, completion, go-to-definition

    A shallow embedding of package [cache] (files [project.go],
    [completion.go], [definition.go]) and of the part of the OPA [ast]
    package that this code reads.  Go pointers that may be [nil] are
    options, Go maps are [gmap]s, a run-time panic is the outcome [Panic],
    a returned [error] is the outcome [Err].  [LookupMethod] and its two
    helpers in [project.go] take no part in completion, definition or
    edits and are left out. *)

From Stdlib Require Import ZArith String Ascii List Bool Lia.
From stdpp Require Import base gmap strings list.

Local Open Scope Z_scope.

(** ** Outcomes of a Go call *)

(** A call returns normally ([Ok]), returns a non-nil [error] ([Err]), or
    panics (nil dereference, index or slice bound out of range, failed type
    assertion). *)
Inductive outcome (A : Type) : Type :=
| Ok (a : A)
| Err (msg : string)
| Panic.
Arguments Ok {A} a.
Arguments Err {A} msg.
Arguments Panic {A}.

(** Sequencing: the first error or panic ends the call. *)
#[global] Instance outcome_ret : MRet outcome := fun A a => Ok a.
#[global] Instance outcome_bind : MBind outcome := fun A B k m =>
  match m with
  | Ok a => k a
  | Err e => Err e
  | Panic => Panic
  end.

(** ** Go strings

    A Go string is a sequence of bytes; [len], slicing and the functions of
    package [strings] used by the source are byte based. *)
Module gostrings.

Definition len (s : string) : Z := Z.of_nat (String.length s).

(** [strings.HasPrefix(s, prefix)] *)
Definition HasPrefix (s prefix : string) : bool := String.prefix prefix s.

(** [s[i:]]; panics unless [0 <= i <= len(s)]. *)
Definition slice_from (s : string) (i : Z) : outcome string :=
  if (0 <=? i) && (i <=? len s)
  then Ok (String.substring (Z.to_nat i) (String.length s - Z.to_nat i) s)
  else Panic.

(** [strings.HasSuffix(s, suffix)] *)
Definition HasSuffix (s suffix : string) : bool :=
  (len suffix <=? len s) &&
  String.eqb
    (String.substring (String.length s - String.length suffix)
       (String.length suffix) s)
    suffix.

Fixpoint Index_from (s substr : string) (i : Z) : Z :=
  if String.prefix substr s then i
  else match s with
       | EmptyString => -1
       | String.String _ s' => Index_from s' substr (i + 1)
       end.

(** [strings.Index(s, substr)]: first occurrence, or -1. *)
Definition Index (s substr : string) : Z := Index_from s substr 0.

Fixpoint LastIndex_from (s substr : string) (i : Z) : Z :=
  let later :=
    match s with
    | EmptyString => -1
    | String.String _ s' => LastIndex_from s' substr (i + 1)
    end in
  if 0 <=? later then later
  else if String.prefix substr s then i else -1.

(** [strings.LastIndex(s, substr)]: last occurrence, or -1. *)
Definition LastIndex (s substr : string) : Z := LastIndex_from s substr 0.

(** [strings.Contains(s, substr)] *)
Definition Contains (s substr : string) : bool := 0 <=? Index s substr.

(** [strings.Join(elems, sep)] *)
Fixpoint Join (elems : list string) (sep : string) : string :=
  match elems with
  | [] => EmptyString
  | [e] => e
  | e :: rest => e +:+ sep +:+ Join rest sep
  end.

Definition dquote : ascii := ascii_of_nat 34.
Definition backslash : ascii := ascii_of_nat 92.

Definition hexdigit (n : nat) : ascii :=
  match String.get n "0123456789abcdef" with
  | Some c => c
  | None => "0"%char
  end.

(** One byte of [strconv.Quote]'s output.  Bytes from 0x80 up are copied:
    they are the bytes of printable UTF-8 text in every parsed policy. *)
Definition quoteByte (c : ascii) : string :=
  let n := nat_of_ascii c in
  let esc (e : ascii) := String.String backslash (String.String e EmptyString) in
  if (n =? 34)%nat then esc dquote
  else if (n =? 92)%nat then esc backslash
  else if (n =? 7)%nat then esc "a"%char
  else if (n =? 8)%nat then esc "b"%char
  else if (n =? 12)%nat then esc "f"%char
  else if (n =? 10)%nat then esc "n"%char
  else if (n =? 13)%nat then esc "r"%char
  else if (n =? 9)%nat then esc "t"%char
  else if (n =? 11)%nat then esc "v"%char
  else if (n <? 32)%nat || (n =? 127)%nat
       then String.String backslash
              (String.String "x"%char
                 (String.String (hexdigit (n / 16))
                    (String.String (hexdigit (n mod 16)) EmptyString)))
  else String.String c EmptyString.

(** [strconv.Quote(s)] *)
Definition Quote (s : string) : string :=
  String.String dquote
    (String.concat EmptyString (List.map quoteByte (String.list_ascii_of_string s))
     +:+ String.String dquote EmptyString).

(** [s[:i]]; panics unless [0 <= i <= len(s)]. *)
Definition slice_to (s : string) (i : Z) : outcome string :=
  if (0 <=? i) && (i <=? len s)
  then Ok (String.substring 0 (Z.to_nat i) s)
  else Panic.

(** [strings.ReplaceAll(s, old, new)] for an [old] of one byte. *)
Fixpoint ReplaceAll (s : string) (old : ascii) (new : string) : string :=
  match s with
  | EmptyString => EmptyString
  | String.String c s' =>
      if Ascii.eqb c old then new +:+ ReplaceAll s' old new
      else String.String c (ReplaceAll s' old new)
  end.

End gostrings.

(** ** The OPA [ast] package, as far as the source reads it *)
Module ast.

(** [location.Location] *)
Record Location : Type := NewLocation {
  Text : string;
  File : string;
  Row : Z;
  Col : Z;
  Offset : Z
}.

(** [ast.Term] is a [Value] with a [Location].  The variants the source
    switches on are spelled out; every other variant of [ast.Value] (null,
    object, set, comprehensions) reaches only [default] branches and
    [String()], and is kept as its Go type name and its rendering. *)
Inductive Term : Type :=
| NewTerm (value : Value) (location : Location)
with Value : Type :=
| Boolean (b : bool)
| Number (n : string)
| String (s : string)
| Var (name : string)
| Ref (terms : list Term)
| Array (elems : list Term)
| Call (terms : list Term)
| Other (gotype rendered : string).

Definition TermValue (t : Term) : Value :=
  match t with NewTerm v _ => v end.

(** [term.Loc()] on a non-nil term. *)
Definition Loc (t : Term) : Location :=
  match t with NewTerm _ l => l end.

(** [ast.VarTerm(name)] of the library carries no position. *)
Definition VarTerm (name : string) : Term :=
  NewTerm (Var name) (NewLocation EmptyString EmptyString 0 0 0).

(** [ast.WildcardPrefix] *)
Definition WildcardPrefix : string := "$".

(** [Var.String()]: a wildcard variable prints as [_]. *)
Definition Var_String (name : string) : string :=
  if gostrings.HasPrefix name WildcardPrefix then "_" else name.

(** [ast.Keywords] *)
Definition Keywords : list string :=
  ["not"; "package"; "import"; "as"; "default"; "else"; "with"; "null";
   "true"; "false"; "some"].

Definition IsKeyword (s : string) : bool :=
  existsb (String.eqb s) Keywords.

Definition isAlpha (c : ascii) : bool :=
  let n := nat_of_ascii c in
  ((65 <=? n) && (n <=? 90) || (97 <=? n) && (n <=? 122))%nat.

Definition isDigit (c : ascii) : bool :=
  let n := nat_of_ascii c in ((48 <=? n) && (n <=? 57))%nat.

Definition isUnderscore (c : ascii) : bool := (nat_of_ascii c =? 95)%nat.

(** [varRegexp], the pattern [^[[:alpha:]_][[:alpha:][:digit:]_]*$]. *)
Definition varRegexp (s : string) : bool :=
  match String.list_ascii_of_string s with
  | [] => false
  | c :: rest =>
      (isAlpha c || isUnderscore c) &&
      forallb (fun d => isAlpha d || isDigit d || isUnderscore d) rest
  end.

(** [Term.String()], that is [Value.String()] per variant.  A [Call]
    without operator, on which the library panics, prints as the empty
    string here; no parsed policy holds one. *)
Fixpoint Term_String (t : Term) : string :=
  match t with
  | NewTerm v _ =>
      match v with
      | Boolean b => if b then "true" else "false"
      | Number n => n
      | String s => gostrings.Quote s
      | Var name => Var_String name
      | Ref terms =>
          match terms with
          | [] => EmptyString
          | head :: path =>
              Term_String head +:+
              String.concat EmptyString
                (List.map
                   (fun p =>
                      match p with
                      | NewTerm (String str) _ =>
                          if varRegexp str && negb (IsKeyword str)
                          then "." +:+ str
                          else "[" +:+ Term_String p +:+ "]"
                      | _ => "[" +:+ Term_String p +:+ "]"
                      end) path)
          end
      | Array elems =>
          "[" +:+ gostrings.Join (List.map Term_String elems) ", " +:+ "]"
      | Call terms =>
          match terms with
          | [] => EmptyString
          | op :: args =>
              Term_String op +:+ "(" +:+
              gostrings.Join (List.map Term_String args) ", " +:+ ")"
          end
      | Other _ rendered => rendered
      end
  end.

(** [Ref.String()] *)
Definition Ref_String (ref : list Term) : string :=
  Term_String (NewTerm (Ref ref) (NewLocation EmptyString EmptyString 0 0 0)).

(** [Var.Equal(other)]: only an equal [Var] is equal. *)
Definition Var_Equal (name : string) (other : Value) : bool :=
  match other with
  | Var name' => String.eqb name name'
  | _ => false
  end.

(** [Value.Compare(a, b) == 0], which ignores positions.  Numbers are
    compared by their spelling. *)
Fixpoint Term_Equal (a b : Term) : bool :=
  match a, b with
  | NewTerm va _, NewTerm vb _ =>
      let fix all2 (xs ys : list Term) : bool :=
        match xs, ys with
        | [], [] => true
        | x :: xs', y :: ys' => Term_Equal x y && all2 xs' ys'
        | _, _ => false
        end in
      match va, vb with
      | Boolean x, Boolean y => Bool.eqb x y
      | Number x, Number y => String.eqb x y
      | String x, String y => String.eqb x y
      | Var x, Var y => String.eqb x y
      | Ref xs, Ref ys => all2 xs ys
      | Array xs, Array ys => all2 xs ys
      | Call xs, Call ys => all2 xs ys
      | Other tx rx, Other ty ry => String.eqb tx ty && String.eqb rx ry
      | _, _ => false
      end
  end.

(** [Ref.Equal(other)] *)
Definition Ref_Equal (a b : list Term) : bool :=
  Term_Equal (NewTerm (Ref a) (NewLocation EmptyString EmptyString 0 0 0))
             (NewTerm (Ref b) (NewLocation EmptyString EmptyString 0 0 0)).

(** [Expr.Terms] is an [interface{}] holding a [*Term], a [[]*Term]
    (operator followed by operands) or a [*SomeDecl]. *)
Inductive ExprTerms : Type :=
| SingleTerm (t : Term)
| TermSlice (ts : list Term)
| SomeDecl (symbols : list Term).

Record Expr : Type := NewExpr {
  ExprLocation : Location;
  Terms : ExprTerms
}.

(** [Expr.Operator()]: [nil] unless [Terms] is a non-empty slice; the
    operator term is then asserted to be a [Ref]. *)
Definition Operator (e : Expr) : outcome (list Term) :=
  match Terms e with
  | TermSlice (NewTerm (Ref r) _ :: _) => Ok r
  | TermSlice (_ :: _) => Panic
  | _ => Ok []
  end.

(** [ast.Equality.Ref()] and [ast.Assign.Ref()] *)
Definition Equality_Ref : list Term := [VarTerm "eq"].
Definition Assign_Ref : list Term := [VarTerm "assign"].

Record Head : Type := NewHead {
  Name : string;
  Args : list Term;
  Key : option Term
}.

Record Rule : Type := NewRule {
  RuleLocation : Location;
  RuleHead : Head;
  Body : list Expr
}.

Record Import : Type := NewImport {
  ImportLocation : Location;
  Path : Term;
  Alias : string
}.

(** [Import.String()] *)
Definition Import_String (imp : Import) : string :=
  if (0 <? gostrings.len (Alias imp))
  then gostrings.Join ["import"; Term_String (Path imp);
                       "as " +:+ Var_String (Alias imp)] " "
  else gostrings.Join ["import"; Term_String (Path imp)] " ".

Record Package : Type := NewPackage {
  PackagePath : list Term
}.

Record Module : Type := NewModule {
  ModulePackage : Package;
  Imports : list Import;
  Rules : list Rule
}.

(** [ast.Error] *)
Record Error : Type := NewError {
  Code : string;
  Message : string;
  ErrorLocation : option Location
}.

End ast.

(** ** Package [cache]: data *)

(** [completion.go]: [CompletionKind] and [CompletionItem]. *)
Inductive CompletionKind : Type :=
| Unknown
| VariableItem
| PackageItem
| FunctionItem.

Record CompletionItem : Type := NewCompletionItem {
  Label : string;
  Kind : CompletionKind
}.

(** [project.go]: an open buffer. *)
Record File : Type := NewFile {
  RowText : string;
  Version : Z
}.

(** [project.go]: the store.  A key of [modules] may be bound to a nil
    module: [ast.ParseModule] gives [(nil, nil)] on empty input. *)
Record Project : Type := NewProjectState {
  rootPath : string;
  openFiles : gmap string File;
  modules : gmap string (option ast.Module);
  errs : gmap string (list ast.Error)
}.

(** What [ast.ParseModule(path, text)] can return: a module (possibly nil)
    with a nil error, an error of dynamic type [ast.Errors], or another
    error. *)
Inductive ParseResult : Type :=
| Parsed (module : option ast.Module)
| SyntaxErrors (errors : list ast.Error)
| ParseFailure (msg : string).

(** Go [int] is 64 bits wide here; sums wrap around. *)
Definition int_wrap (z : Z) : Z := (z + 2 ^ 63) mod 2 ^ 64 - 2 ^ 63.

(** [definition.go]: [in(target, src)]. *)
Definition in_ (target src : ast.Location) : bool :=
  (ast.Offset src <=? ast.Offset target) &&
  (ast.Offset target <=?
   int_wrap (ast.Offset src + gostrings.len (ast.Text src))).

(** [project.go]: [GetModule]; a missing key reads as nil. *)
Definition GetModule (p : Project) (path : string) : option ast.Module :=
  match modules p !! path with
  | Some m => m
  | None => None
  end.

(** [project.go]: [GetFile]. *)
Definition GetFile (p : Project) (path : string) : option File :=
  openFiles p !! path.

(** [project.go]: [DeleteFile]. *)
Definition DeleteFile (p : Project) (path : string) : Project :=
  {| rootPath := rootPath p;
     openFiles := delete path (openFiles p);
     modules := modules p;
     errs := delete path (errs p) |}.

(** [project.go]: [NewProject], given what [loader.AllRegos] parsed. *)
Definition NewProject (root : string)
    (parsed : gmap string (option ast.Module)) : Project :=
  {| rootPath := root; openFiles := ∅; modules := parsed; errs := ∅ |}.

(** ** [completion.go] *)

(** [listCompletionItemsInTerm]; the loop over a [Ref] starts at index 1. *)
Fixpoint listCompletionItemsInTerm (target term : ast.Term)
    : list CompletionItem :=
  match term with
  | ast.NewTerm v _ =>
      match v with
      | ast.Array elems => flat_map (listCompletionItemsInTerm target) elems
      | ast.Ref terms =>
          match terms with
          | [] => []
          | _ :: rest => flat_map (listCompletionItemsInTerm target) rest
          end
      | ast.Var name =>
          [ {| Label := ast.Var_String name; Kind := VariableItem |} ]
      | _ => []
      end
  end.

(** The [for _, b := range rule.Body] loop of [listCompletionItemsInRule],
    with [result] as accumulator; [break] returns it. *)
Fixpoint listCompletionItemsInBody (target : ast.Term) (body : list ast.Expr)
    (result : list CompletionItem) : outcome (list CompletionItem) :=
  match body with
  | [] => Ok result
  | b :: rest =>
      if ast.Offset (ast.Loc target) <=? ast.Offset (ast.ExprLocation b)
      then Ok result
      else
        match ast.Terms b with
        | ast.SingleTerm t =>
            listCompletionItemsInBody target rest
              (result ++ listCompletionItemsInTerm target t)
        | ast.TermSlice t =>
            op ← ast.Operator b;
            if ast.Ref_Equal ast.Equality_Ref op
               || ast.Ref_Equal ast.Assign_Ref op
            then
              match t !! 1%nat with
              | Some t1 =>
                  listCompletionItemsInBody target rest
                    (result ++ listCompletionItemsInTerm target t1)
              | None => Panic
              end
            else listCompletionItemsInBody target rest result
        | ast.SomeDecl _ => listCompletionItemsInBody target rest result
        end
  end.

(** [listCompletionItemsInRule] *)
Definition listCompletionItemsInRule (target : ast.Term) (rule : ast.Rule)
    : outcome (list CompletionItem) :=
  let result :=
    match ast.Key (ast.RuleHead rule) with
    | Some key => [ {| Label := ast.Term_String key; Kind := VariableItem |} ]
    | None => []
    end in
  let result :=
    result ++
    List.map (fun arg => {| Label := ast.Term_String arg; Kind := VariableItem |})
      (ast.Args (ast.RuleHead rule)) in
  listCompletionItemsInBody target (ast.Body rule) result.

(** [importToLabel] *)
Definition importToLabel (imp : ast.Import) : outcome string :=
  let alias := ast.Var_String (ast.Alias imp) in
  if negb (String.eqb alias EmptyString) then Ok alias
  else
    gostrings.slice_from (ast.Import_String imp)
      (gostrings.LastIndex (ast.Import_String imp) "." + 1).

(** [getTermPrefix]; [v[len(v)-1]] panics on an empty [Ref]. *)
Definition getTermPrefix (target : ast.Term) : outcome string :=
  match ast.TermValue target with
  | ast.Ref v =>
      match last v with
      | Some t => Ok (ast.Term_String t)
      | None => Panic
      end
  | _ => Ok (ast.Term_String target)
  end.

(** [filterCompletionItems]; reading [target.Value] of a nil term panics. *)
Definition filterCompletionItems (target : option ast.Term)
    (items : list CompletionItem) : outcome (list CompletionItem) :=
  match target with
  | None => Panic
  | Some target =>
      termPrefix ← getTermPrefix target;
      Ok (List.filter
            (fun item => gostrings.HasPrefix (Label item) termPrefix) items)
  end.

(** ** [definition.go]: locating the term under the cursor *)

(** [searchRuleForTerm] *)
Definition searchRuleForTerm (p : Project) (term : ast.Term)
    : option ast.Rule :=
  match GetModule p (ast.File (ast.Loc term)) with
  | None => None
  | Some module =>
      List.find (fun r => in_ (ast.Loc term) (ast.RuleLocation r))
        (ast.Rules module)
  end.

(** The loop of [searchTargetTermInTerms] over a search [f] for one term:
    the first term whose span holds the location decides. *)
Definition searchFirstIn (f : ast.Term -> outcome (option ast.Term))
    (loc : ast.Location) : list ast.Term -> outcome (option ast.Term) :=
  fix go (terms : list ast.Term) :=
    match terms with
    | [] => Ok None
    | t :: rest => if in_ loc (ast.Loc t) then f t else go rest
    end.

(** The loop of the [*ast.Array] case of [searchTargetTermInTerm]. *)
Definition searchArray (f : ast.Term -> outcome (option ast.Term))
    (loc : ast.Location) : list ast.Term -> outcome (option ast.Term) :=
  fix go (elems : list ast.Term) :=
    match elems with
    | [] => Ok None
    | e :: rest =>
        match f e with
        | Ok (Some t) => if in_ loc (ast.Loc t) then Ok (Some t) else go rest
        | Ok None => go rest
        | Err msg => Err msg
        | Panic => Panic
        end
    end.

Definition newline : string := String.String (ascii_of_nat 10) EmptyString.

(** The term synthesized for [alias.field]: both segments, positioned at
    the first. *)
Definition compoundTerm (v0 v1 : ast.Term) : ast.Term :=
  let value := [v0; v1] in
  let loc := ast.Loc v0 in
  ast.NewTerm (ast.Ref value)
    {| ast.Text := ast.Ref_String value;
       ast.File := ast.File loc;
       ast.Row := ast.Row loc;
       ast.Col := ast.Col loc;
       ast.Offset := ast.Offset loc |}.

(** [searchTargetTermInTerm] *)
Fixpoint searchTargetTermInTerm (loc : ast.Location) (term : ast.Term)
    : outcome (option ast.Term) :=
  match term with
  | ast.NewTerm v _ =>
      match v with
      | ast.Call terms =>
          searchFirstIn (searchTargetTermInTerm loc) loc terms
      | ast.Ref terms =>
          match terms with
          | [v0] => searchTargetTermInTerm loc v0
          | v0 :: v1 :: _ =>
              match ast.TermValue v0, ast.TermValue v1 with
              | ast.Var _, ast.String _ =>
                  if in_ loc (ast.Loc v0) || in_ loc (ast.Loc v1)
                  then Ok (Some (compoundTerm v0 v1))
                  else searchFirstIn (searchTargetTermInTerm loc) loc terms
              | _, _ => searchFirstIn (searchTargetTermInTerm loc) loc terms
              end
          | [] => searchFirstIn (searchTargetTermInTerm loc) loc terms
          end
      | ast.Array elems => searchArray (searchTargetTermInTerm loc) loc elems
      | ast.Var _ => Ok (Some term)
      | ast.String _ | ast.Boolean _ | ast.Number _ => Ok None
      | ast.Other gotype rendered =>
          Err ("not supported type " +:+ gotype +:+ ": " +:+ rendered
               +:+ newline)
      end
  end.

(** [searchTargetTermInTerms] *)
Definition searchTargetTermInTerms (loc : ast.Location)
    (terms : list ast.Term) : outcome (option ast.Term) :=
  searchFirstIn (searchTargetTermInTerm loc) loc terms.

(** [searchTargetTermInRule]: a [*SomeDecl] matches no case of the type
    switch, and the loop goes on. *)
Fixpoint searchTargetTermInBody (loc : ast.Location) (body : list ast.Expr)
    : outcome (option ast.Term) :=
  match body with
  | [] => Ok None
  | b :: rest =>
      if negb (in_ loc (ast.ExprLocation b))
      then searchTargetTermInBody loc rest
      else
        match ast.Terms b with
        | ast.SingleTerm t => searchTargetTermInTerm loc t
        | ast.TermSlice t => searchTargetTermInTerms loc t
        | ast.SomeDecl _ => searchTargetTermInBody loc rest
        end
  end.

Definition searchTargetTermInRule (loc : ast.Location) (rule : ast.Rule)
    : outcome (option ast.Term) :=
  searchTargetTermInBody loc (ast.Body rule).

(** [searchTargetTerm]: the first rule whose span holds the location. *)
Definition searchTargetTerm (p : Project) (loc : ast.Location)
    : outcome (option ast.Term) :=
  match GetModule p (ast.File loc) with
  | None => Ok None
  | Some module =>
      match List.find (fun r => in_ loc (ast.RuleLocation r))
              (ast.Rules module) with
      | Some r => searchTargetTermInRule loc r
      | None => Ok None
      end
  end.

(** ** [completion.go]: building and filtering the candidates *)

(** [listCompletionItemsForTerms]; [target.Loc().File] on a nil target is
    a nil dereference. *)
Definition listCompletionItemsForTerms (p : Project)
    (target : option ast.Term) : outcome (list CompletionItem) :=
  match target with
  | None => Panic
  | Some target =>
      match GetModule p (ast.File (ast.Loc target)) with
      | None => Ok []
      | Some module =>
          imports ←
            mapM (fun i =>
                    label ← importToLabel i;
                    Ok {| Label := label; Kind := PackageItem |})
              (ast.Imports module);
          inRule ←
            match searchRuleForTerm p target with
            | Some rule => listCompletionItemsInRule target rule
            | None => Ok []
            end;
          Ok (imports ++ inRule ++
              List.map
                (fun r =>
                   {| Label := ast.Var_String (ast.Name (ast.RuleHead r));
                      Kind := FunctionItem |})
                (ast.Rules module))
      end
  end.

(** [ListCompletionItems]; the trace written to standard error is not
    modelled. *)
Definition ListCompletionItems (p : Project) (location : ast.Location)
    : outcome (list CompletionItem) :=
  term ← searchTargetTerm p location;
  items ← listCompletionItemsForTerms p term;
  filterCompletionItems term items.

(** ** [definition.go]: finding the definition *)

(** The loop of [findDefinitionInTerms] (and of the [*ast.Array] case)
    over a search [f] for one term: the first hit is returned. *)
Definition firstDefinition (f : ast.Term -> outcome (option ast.Term))
    : list ast.Term -> outcome (option ast.Term) :=
  fix go (terms : list ast.Term) :=
    match terms with
    | [] => Ok None
    | term :: rest =>
        t ← f term;
        match t with
        | Some _ => Ok t
        | None => go rest
        end
    end.

(** [findDefinitionInTerm]; [v[1:]] panics on an empty [Ref].
    [target.Equal(term)] with [term] a [Var] holds exactly when [target]
    is the same [Var]. *)
Fixpoint findDefinitionInTerm (target term : ast.Term)
    : outcome (option ast.Term) :=
  match term with
  | ast.NewTerm v location =>
      match v with
      | ast.Call terms => firstDefinition (findDefinitionInTerm target) terms
      | ast.Ref terms =>
          match terms with
          | [] => Panic
          | _ :: rest => firstDefinition (findDefinitionInTerm target) rest
          end
      | ast.Array elems => firstDefinition (findDefinitionInTerm target) elems
      | ast.Var name =>
          if ast.Var_Equal name (ast.TermValue target)
             && (ast.Offset location <? ast.Offset (ast.Loc target))
          then Ok (Some term)
          else Ok None
      | ast.String _ | ast.Boolean _ | ast.Number _ => Ok None
      | ast.Other _ _ => Ok None
      end
  end.

(** [findDefinitionInTerms] *)
Definition findDefinitionInTerms (target : ast.Term) (terms : list ast.Term)
    : outcome (option ast.Term) :=
  firstDefinition (findDefinitionInTerm target) terms.

(** The [for _, b := range rule.Body] loop of [findDefinitionInRule]. *)
Fixpoint findDefinitionInBody (term : ast.Term) (body : list ast.Expr)
    : outcome (option ast.Term) :=
  match body with
  | [] => Ok None
  | b :: rest =>
      match ast.Terms b with
      | ast.SingleTerm t =>
          result ← findDefinitionInTerm term t;
          match result with
          | Some _ => Ok result
          | None => findDefinitionInBody term rest
          end
      | ast.TermSlice t =>
          op ← ast.Operator b;
          if ast.Ref_Equal ast.Equality_Ref op
             || ast.Ref_Equal ast.Assign_Ref op
          then
            match t !! 1%nat with
            | Some t1 =>
                result ← findDefinitionInTerm term t1;
                match result with
                | Some _ => Ok result
                | None => findDefinitionInBody term rest
                end
            | None => Panic
            end
          else findDefinitionInBody term rest
      | ast.SomeDecl _ => findDefinitionInBody term rest
      end
  end.

(** [findDefinitionInRule] *)
Definition findDefinitionInRule (term : ast.Term) (rule : ast.Rule)
    : outcome (option ast.Term) :=
  let term :=
    match ast.TermValue term with
    | ast.Ref (t0 :: _ :: _) => t0
    | _ => term
    end in
  result ←
    match ast.Key (ast.RuleHead rule) with
    | Some key => findDefinitionInTerm term key
    | None => Ok None
    end;
  match result with
  | Some _ => Ok result
  | None =>
      result ← findDefinitionInTerms term (ast.Args (ast.RuleHead rule));
      match result with
      | Some _ => Ok result
      | None => findDefinitionInBody term (ast.Body rule)
      end
  end.

(** [findImportOutsidePolicy]; the slice panics when the import's text
    holds no dot ([LastIndex] is then -1). *)
Fixpoint findImportOutsidePolicy (moduleName : string)
    (imports : list ast.Import) : outcome (option ast.Import) :=
  match imports with
  | [] => Ok None
  | imp :: rest =>
      let alias := ast.Var_String (ast.Alias imp) in
      if negb (String.eqb alias EmptyString) && String.eqb moduleName alias
      then Ok (Some imp)
      else
        m ← gostrings.slice_from (ast.Import_String imp)
               (gostrings.LastIndex (ast.Import_String imp) ".");
        if gostrings.HasSuffix m moduleName then Ok (Some imp)
        else findImportOutsidePolicy moduleName rest
  end.

(** [findPolicyRef]; a nil [ast.Ref] is the empty one. *)
Definition findPolicyRef (p : Project) (term : ast.Term)
    : outcome (list ast.Term) :=
  match GetModule p (ast.File (ast.Loc term)) with
  | None => Ok []
  | Some module =>
      match ast.TermValue term with
      | ast.Ref (r0 :: _ :: _) =>
          imp ← findImportOutsidePolicy (ast.Term_String r0)
                   (ast.Imports module);
          match imp with
          | None => Ok []
          | Some imp =>
              match ast.TermValue (ast.Path imp) with
              | ast.Ref result => Ok result
              | _ => Ok []
              end
          end
      | _ => Ok (ast.PackagePath (ast.ModulePackage module))
      end
  end.

(** Modelled from the spec: [getModules], which [findPolicies] calls and
    whose body is outside the given files; the definition resolver
    "enumerate[s] every loaded module", so it returns the store's modules
    and no error.  A Go map is ranged over in no fixed order; the order of
    [map_to_list] stands for one of them. *)
Definition getModules (p : Project) : outcome (list (option ast.Module)) :=
  Ok (List.map snd (map_to_list (modules p))).

(** The loop of [findPolicies]; reading [module.Package] of a nil module
    panics. *)
Fixpoint matchingPolicies (packageName : list ast.Term)
    (mods : list (option ast.Module)) : outcome (list ast.Module) :=
  match mods with
  | [] => Ok []
  | None :: _ => Panic
  | Some module :: rest =>
      result ← matchingPolicies packageName rest;
      if ast.Ref_Equal (ast.PackagePath (ast.ModulePackage module)) packageName
      then Ok (module :: result)
      else Ok result
  end.

(** [findPolicies]; an error of [getModules] gives nil. *)
Definition findPolicies (p : Project) (packageName : list ast.Term)
    : outcome (list ast.Module) :=
  match getModules p with
  | Ok mods => matchingPolicies packageName mods
  | Err _ => Ok []
  | Panic => Panic
  end.

(** [findDefinitionInModule] *)
Definition findDefinitionInModule (p : Project) (term : ast.Term)
    (path : string) : outcome (list ast.Location) :=
  searchPackageName ← findPolicyRef p term;
  searchPolicies ← findPolicies p searchPackageName;
  match searchPolicies with
  | [] => Ok []
  | _ =>
      let word := ast.Term_String term in
      word ←
        (if gostrings.Contains word "."
         then gostrings.slice_from word (gostrings.Index word "." + 1)
         else Ok word);
      Ok (flat_map
            (fun m =>
               List.map ast.RuleLocation
                 (List.filter
                    (fun rule =>
                       String.eqb
                         (ast.Var_String (ast.Name (ast.RuleHead rule))) word)
                    (ast.Rules m)))
            searchPolicies)
  end.

(** [findDefinition] *)
Definition findDefinition (p : Project) (term : ast.Term) (path : string)
    : outcome (list ast.Location) :=
  match searchRuleForTerm p term with
  | Some rule =>
      target ← findDefinitionInRule term rule;
      match target with
      | Some target => Ok [ast.Loc target]
      | None => findDefinitionInModule p term path
      end
  | None => findDefinitionInModule p term path
  end.

(** [LookupDefinition] *)
Definition LookupDefinition (p : Project) (location : ast.Location)
    : outcome (list ast.Location) :=
  targetTerm ← searchTargetTerm p location;
  match targetTerm with
  | None => Ok []
  | Some targetTerm => findDefinition p targetTerm (ast.File location)
  end.

(** ** [project.go]: edits and diagnostics

    The parser, the compiler's consistency pass and the file system are
    collaborators outside the package. *)
Section ModuleStore.

Variable ParseModule : string -> string -> ParseResult.
Variable Compile : gmap string (option ast.Module) -> list ast.Error.
Variable ReadFile : string -> outcome string.

(** [UpdateFile]: the returned error ([None] is nil) and the store after
    the call. *)
Definition UpdateFile (p : Project) (path text : string) (version : Z)
    : option string * Project :=
  let open := <[path := {| RowText := text; Version := version |}]>
                (openFiles p) in
  match ParseModule path text with
  | SyntaxErrors es =>
      (None,
       {| rootPath := rootPath p; openFiles := open;
          modules := modules p; errs := <[path := es]> (errs p) |})
  | ParseFailure msg =>
      (Some msg,
       {| rootPath := rootPath p; openFiles := open;
          modules := modules p; errs := errs p |})
  | Parsed module =>
      (None,
       {| rootPath := rootPath p; openFiles := open;
          modules := <[path := module]> (modules p);
          errs := delete path (errs p) |})
  end.

(** [GetErrors]: the stored syntax errors, else what compiling all modules
    reports (nil when the compiler did not fail). *)
Definition GetErrors (p : Project) (path : string) : list ast.Error :=
  match errs p !! path with
  | Some es => es
  | None => Compile (modules p)
  end.

(** [GetRawText] *)
Definition GetRawText (p : Project) (path : string) : outcome string :=
  match GetFile p path with
  | Some f => Ok (RowText f)
  | None => ReadFile path
  end.

End ModuleStore.

(** ** Well-formed syntax trees

    What every tree built by the parser satisfies and the traversals rely
    on: a [Ref] is never empty, the operator of a call expression is a
    [Ref], and an equality or assignment has its left operand. *)

Fixpoint wf_term (t : ast.Term) : bool :=
  match t with
  | ast.NewTerm v _ =>
      match v with
      | ast.Ref terms =>
          match terms with
          | [] => false
          | _ :: _ => forallb wf_term terms
          end
      | ast.Array elems => forallb wf_term elems
      | ast.Call terms => forallb wf_term terms
      | _ => true
      end
  end.

Definition isBindingOperator (op : list ast.Term) : bool :=
  ast.Ref_Equal ast.Equality_Ref op || ast.Ref_Equal ast.Assign_Ref op.

Definition wf_expr (b : ast.Expr) : bool :=
  match ast.Terms b with
  | ast.SingleTerm t => wf_term t
  | ast.TermSlice ts =>
      forallb wf_term ts &&
      match ts with
      | [] => true
      | ast.NewTerm (ast.Ref op) _ :: operands =>
          negb (isBindingOperator op) || (1 <=? length operands)%nat
      | _ :: _ => false
      end
  | ast.SomeDecl _ => true
  end.

Definition wf_rule (r : ast.Rule) : bool :=
  match ast.Key (ast.RuleHead r) with
  | Some key => wf_term key
  | None => true
  end
  && forallb wf_term (ast.Args (ast.RuleHead r))
  && forallb wf_expr (ast.Body r).

(** The terms directly below a term. *)
Definition subterms (v : ast.Value) : list ast.Term :=
  match v with
  | ast.Ref terms => terms
  | ast.Array elems => elems
  | ast.Call terms => terms
  | _ => []
  end.

(** ** The specification's words, for comparison with the code *)

(** Scope resolver, candidates: the head key and the head arguments are
    always candidates. *)
Definition headCandidates (rule : ast.Rule) : list CompletionItem :=
  match ast.Key (ast.RuleHead rule) with
  | Some key => [ {| Label := ast.Term_String key; Kind := VariableItem |} ]
  | None => []
  end ++
  List.map (fun arg => {| Label := ast.Term_String arg; Kind := VariableItem |})
    (ast.Args (ast.RuleHead rule)).

(** The operand of a body expression that introduces bindings: a bare
    term itself, the left operand of an equality or assignment, nothing
    for any other expression. *)
Definition bindingSide (b : ast.Expr) : option ast.Term :=
  match ast.Terms b with
  | ast.SingleTerm t => Some t
  | ast.TermSlice ts =>
      match ast.Operator b with
      | Ok op => if isBindingOperator op then ts !! 1%nat else None
      | _ => None
      end
  | ast.SomeDecl _ => None
  end.

(** The candidates one body expression contributes. *)
Definition exprCandidates (target : ast.Term) (b : ast.Expr)
    : list CompletionItem :=
  match bindingSide b with
  | Some t => listCompletionItemsInTerm target t
  | None => []
  end.

(** "Walks body expressions in source order, stopping before the first
    expression whose offset >= term's offset." *)
Fixpoint bodyBefore (target : ast.Term) (body : list ast.Expr)
    : list ast.Expr :=
  match body with
  | [] => []
  | b :: rest =>
      if ast.Offset (ast.ExprLocation b) <? ast.Offset (ast.Loc target)
      then b :: bodyBefore target rest
      else []
  end.

(** Binding search, descent: call operands, the segments of a
    qualified-access chain after its first, and array elements are
    recursed into; a [Var] leaf is a binding site; literals and
    unrecognized kinds contribute nothing. *)
Fixpoint bindingSites (t : ast.Term) : list ast.Term :=
  match t with
  | ast.NewTerm v _ =>
      match v with
      | ast.Call terms => flat_map bindingSites terms
      | ast.Ref terms =>
          match terms with
          | [] => []
          | _ :: rest => flat_map bindingSites rest
          end
      | ast.Array elems => flat_map bindingSites elems
      | ast.Var _ => [t]
      | _ => []
      end
  end.

(** Walk order: head key, head arguments, then the body expressions in
    source order. *)
Definition bindingWalk (rule : ast.Rule) : list ast.Term :=
  match ast.Key (ast.RuleHead rule) with
  | Some key => bindingSites key
  | None => []
  end ++
  flat_map bindingSites (ast.Args (ast.RuleHead rule)) ++
  flat_map
    (fun b => match bindingSide b with
              | Some t => bindingSites t
              | None => []
              end)
    (ast.Body rule).


(** Import resolver: "a match occurs when an import's explicit alias
    equals the segment, or, if the import has no alias, when the import's
    dotted path's final component equals the segment." *)
Definition finalComponent (imp : ast.Import) : option string :=
  match ast.TermValue (ast.Path imp) with
  | ast.Ref terms =>
      match last terms with
      | Some (ast.NewTerm (ast.String s) _) => Some s
      | Some (ast.NewTerm (ast.Var s) _) => Some s
      | _ => None
      end
  | _ => None
  end.

Definition aliasMatches (segment : string) (imp : ast.Import) : bool :=
  if negb (String.eqb (ast.Alias imp) EmptyString)
  then String.eqb (ast.Alias imp) segment
  else
    match finalComponent imp with
    | Some s => String.eqb s segment
    | None => false
    end.

Definition resolveAlias (segment : string) (imports : list ast.Import)
    : option ast.Import :=
  List.find (aliasMatches segment) imports.





(** The Function-kind candidates labelled [name]. *)
Definition functionCandidates (name : string) (items : list CompletionItem)
    : list CompletionItem :=
  List.filter
    (fun item =>
       match Kind item with
       | FunctionItem => String.eqb (Label item) name
       | _ => false
       end)
    items.

(** The clauses of a module whose head name prints as [name]. *)
Definition clausesNamed (name : string) (module : ast.Module)
    : list ast.Rule :=
  List.filter
    (fun r => String.eqb (ast.Var_String (ast.Name (ast.RuleHead r))) name)
    (ast.Rules module).


(** Candidate filtering: the matching prefix of a located term. *)
Definition matchingPrefix (target : ast.Term) : option string :=
  match ast.TermValue target with
  | ast.Ref segments =>
      match last segments with
      | Some final => Some (ast.Term_String final)
      | None => None
      end
  | _ => Some (ast.Term_String target)
  end.

(** What [findImportOutsidePolicy] tests on one import: the alias, or
    else whether the import's text from its last dot on ends with the
    segment. *)
Definition suffixMatches (segment : string) (imp : ast.Import) : bool :=
  let alias := ast.Var_String (ast.Alias imp) in
  negb (String.eqb alias EmptyString) && String.eqb segment alias
  || match gostrings.slice_from (ast.Import_String imp)
             (gostrings.LastIndex (ast.Import_String imp) ".") with
     | Ok m => gostrings.HasSuffix m segment
     | _ => false
     end.

Definition hasDot (imp : ast.Import) : bool :=
  0 <=? gostrings.LastIndex (ast.Import_String imp) ".".

(** The label [importToLabel] gives an import (it never panics, see
    [importToLabel_total]). *)
Definition importLabel (imp : ast.Import) : string :=
  match importToLabel imp with
  | Ok label => label
  | _ => EmptyString
  end.


(** Completion engine, source 3, as a property of the candidates built
    for a target: a name with several clauses has one Function-kind
    candidate. *)
Definition oneCandidatePerNameClaim (p : Project) (target : ast.Term) : Prop :=
  forall module name,
    GetModule p (ast.File (ast.Loc target)) = Some module ->
    (2 <= length (clausesNamed name module))%nat ->
    exists items,
      listCompletionItemsForTerms p (Some target) = Ok items /\
      length (functionCandidates name items) = 1%nat.

(** ** A small workspace

    [main.rego]:
<<
package main
import data.lib
violation[msg] { x := 1; lib.i; y := x }
f(a) { a }
f(a, b) { a == b }
>>
    [util.rego] holds [package util] and nothing else.  Offsets are byte
    offsets into the file, as the parser records them. *)
Module Example.

Definition at_ (file : string) (offset : Z) (text : string) : ast.Location :=
  {| ast.Text := text; ast.File := file; ast.Row := 1; ast.Col := 1;
     ast.Offset := offset |}.

Definition line (row start offset : Z) (text : string) : ast.Location :=
  {| ast.Text := text; ast.File := "main.rego"; ast.Row := row;
     ast.Col := offset - start + 1; ast.Offset := offset |}.

Definition var (row start offset : Z) (name : string) : ast.Term :=
  ast.NewTerm (ast.Var name) (line row start offset name).

Definition operator (row start offset : Z) (name text : string) : ast.Term :=
  ast.NewTerm (ast.Ref [ast.VarTerm name]) (line row start offset text).

Definition pkg_main : list ast.Term :=
  [ast.NewTerm (ast.Var "data") (at_ "main.rego" 8 "main");
   ast.NewTerm (ast.String "main") (at_ "main.rego" 8 "main")].

Definition path_lib : ast.Term :=
  ast.NewTerm
    (ast.Ref [var 2 13 20 "data";
              ast.NewTerm (ast.String "lib") (line 2 13 25 "lib")])
    (line 2 13 20 "data.lib").

Definition import_lib : ast.Import :=
  {| ast.ImportLocation := line 2 13 13 "import data.lib";
     ast.Path := path_lib;
     ast.Alias := EmptyString |}.

(** [msg] in [violation[msg]] *)
Definition key_msg : ast.Term := var 3 29 39 "msg".

(** [x := 1] *)
Definition x_bound : ast.Term := var 3 29 46 "x".
Definition one : ast.Term :=
  ast.NewTerm (ast.Number "1") (line 3 29 51 "1").
Definition expr_x : ast.Expr :=
  {| ast.ExprLocation := line 3 29 46 "x := 1";
     ast.Terms := ast.TermSlice [operator 3 29 48 "assign" ":="; x_bound; one] |}.

(** [lib.i] *)
Definition seg_lib : ast.Term := var 3 29 54 "lib".
Definition seg_i : ast.Term :=
  ast.NewTerm (ast.String "i") (line 3 29 58 "i").
Definition ref_lib_i : ast.Term :=
  ast.NewTerm (ast.Ref [seg_lib; seg_i]) (line 3 29 54 "lib.i").
Definition expr_lib_i : ast.Expr :=
  {| ast.ExprLocation := line 3 29 54 "lib.i";
     ast.Terms := ast.SingleTerm ref_lib_i |}.

(** [y := x] *)
Definition y_bound : ast.Term := var 3 29 61 "y".
Definition x_used : ast.Term := var 3 29 66 "x".
Definition expr_y : ast.Expr :=
  {| ast.ExprLocation := line 3 29 61 "y := x";
     ast.Terms :=
       ast.TermSlice [operator 3 29 63 "assign" ":="; y_bound; x_used] |}.

Definition rule_violation : ast.Rule :=
  {| ast.RuleLocation :=
       line 3 29 29 "violation[msg] { x := 1; lib.i; y := x }";
     ast.RuleHead :=
       {| ast.Name := "violation"; ast.Args := []; ast.Key := Some key_msg |};
     ast.Body := [expr_x; expr_lib_i; expr_y] |}.

(** [f(a) { a }] *)
Definition rule_f1 : ast.Rule :=
  {| ast.RuleLocation := line 4 70 70 "f(a) { a }";
     ast.RuleHead :=
       {| ast.Name := "f"; ast.Args := [var 4 70 72 "a"]; ast.Key := None |};
     ast.Body :=
       [ {| ast.ExprLocation := line 4 70 77 "a";
            ast.Terms := ast.SingleTerm (var 4 70 77 "a") |} ] |}.

(** [f(a, b) { a == b }] *)
Definition rule_f2 : ast.Rule :=
  {| ast.RuleLocation := line 5 81 81 "f(a, b) { a == b }";
     ast.RuleHead :=
       {| ast.Name := "f";
          ast.Args := [var 5 81 83 "a"; var 5 81 86 "b"];
          ast.Key := None |};
     ast.Body :=
       [ {| ast.ExprLocation := line 5 81 91 "a == b";
            ast.Terms :=
              ast.TermSlice [operator 5 81 93 "equal" "==";
                             var 5 81 91 "a"; var 5 81 96 "b"] |} ] |}.

Definition module_main : ast.Module :=
  {| ast.ModulePackage := {| ast.PackagePath := pkg_main |};
     ast.Imports := [import_lib];
     ast.Rules := [rule_violation; rule_f1; rule_f2] |}.

Definition pkg_util : list ast.Term :=
  [ast.NewTerm (ast.Var "data") (at_ "util.rego" 8 "util");
   ast.NewTerm (ast.String "util") (at_ "util.rego" 8 "util")].

Definition module_util : ast.Module :=
  {| ast.ModulePackage := {| ast.PackagePath := pkg_util |};
     ast.Imports := [];
     ast.Rules := [] |}.

Definition project : Project :=
  NewProject "."
    (<["main.rego" := Some module_main]>
       (<["util.rego" := Some module_util]> ∅)).

(** Cursor positions in [main.rego]. *)
Definition cursor (offset : Z) : ast.Location :=
  {| ast.Text := EmptyString; ast.File := "main.rego"; ast.Row := 3;
     ast.Col := offset - 29 + 1; ast.Offset := offset |}.

(** A cursor in a file the store has no module for. *)
Definition cursor_elsewhere : ast.Location :=
  {| ast.Text := EmptyString; ast.File := "other.rego"; ast.Row := 1;
     ast.Col := 1; ast.Offset := 0 |}.

(** Imports for the alias resolver: [import data.xlib] before
    [import data.lib], and the dotless [import input]. *)
Definition import_xlib : ast.Import :=
  {| ast.ImportLocation := at_ "main.rego" 13 "import data.xlib";
     ast.Path :=
       ast.NewTerm
         (ast.Ref [ast.NewTerm (ast.Var "data") (at_ "main.rego" 20 "data");
                   ast.NewTerm (ast.String "xlib") (at_ "main.rego" 25 "xlib")])
         (at_ "main.rego" 20 "data.xlib");
     ast.Alias := EmptyString |}.

Definition import_input : ast.Import :=
  {| ast.ImportLocation := at_ "main.rego" 13 "import input";
     ast.Path :=
       ast.NewTerm
         (ast.Ref [ast.NewTerm (ast.Var "input") (at_ "main.rego" 20 "input")])
         (at_ "main.rego" 20 "input");
     ast.Alias := EmptyString |}.

(** A parser and a compiler for the store: the text [package main] parses
    to [module_main], any other text has one syntax error. *)
Definition syntax_error : ast.Error :=
  {| ast.Code := "rego_parse_error"; ast.Message := "unexpected eof token";
     ast.ErrorLocation := None |}.

Definition parse (path text : string) : ParseResult :=
  if String.eqb text "package main" then Parsed (Some module_main)
  else SyntaxErrors [syntax_error].

Definition compile (mods : gmap string (option ast.Module))
    : list ast.Error := [].

End Example.

(** ** [project.go]: looking a method up *)

(** [GetOpenFiles] *)
Definition GetOpenFiles (p : Project) : gmap string File := openFiles p.

(** [findImportModule]: the first import whose path text ends with the
    name; the alias is not read. *)
Definition findImportModule (moduleName : string) (imports : list ast.Import)
    : option ast.Import :=
  List.find
    (fun imp => gostrings.HasSuffix (ast.Term_String (ast.Path imp)) moduleName)
    imports.

(** The file-name suffix [findImportPath] builds from an import: dots
    become slashes, a leading [data/] is cut, [.rego] is added. *)
Definition importFileSuffix (imp : ast.Import) : outcome string :=
  let impPath :=
    gostrings.ReplaceAll (ast.Term_String (ast.Path imp)) "." "/" in
  impPath ← (if gostrings.HasPrefix impPath "data/"
             then gostrings.slice_from impPath 5
             else Ok impPath);
  Ok (impPath +:+ ".rego").

(** [findImportPath].  The loop ranges over the keys of [p.modules], a Go
    map, in an order the run time picks; [order] is that order. *)
Definition findImportPath (order : list string) (imp : option ast.Import)
    : outcome string :=
  match imp with
  | None => Ok EmptyString
  | Some imp =>
      impPath ← importFileSuffix imp;
      Ok (match List.find (fun path => gostrings.HasSuffix path impPath) order with
          | Some path => path
          | None => EmptyString
          end)
  end.

(** The end of [LookupMethod]: the rules of [mod] named [word]. *)
Definition rulesNamed (m : option ast.Module) (word path : string)
    : outcome (list ast.Rule * string) :=
  match m with
  | None => Ok ([], path)
  | Some m =>
      Ok (List.filter
            (fun rule =>
               String.eqb (ast.Var_String (ast.Name (ast.RuleHead rule))) word)
            (ast.Rules m),
          path)
  end.

(** [LookupMethod]; [module.Imports] of a nil module is a nil
    dereference. *)
Definition LookupMethod (order : list string) (p : Project)
    (word path : string) : outcome (list ast.Rule * string) :=
  if gostrings.Contains word "."
  then
    importedModule ← gostrings.slice_to word (gostrings.Index word ".");
    match GetModule p path with
    | None => Panic
    | Some module =>
        let imp := findImportModule importedModule (ast.Imports module) in
        importPath ← findImportPath order imp;
        word ← gostrings.slice_from word (gostrings.LastIndex word "." + 1);
        rulesNamed (GetModule p importPath) word importPath
    end
  else rulesNamed (GetModule p path) word path.

(** The last dot-separated component of a word. *)
Definition lastComponent (word : string) : string :=
  match gostrings.slice_from word (gostrings.LastIndex word "." + 1) with
  | Ok w => w
  | _ => word
  end.

(** ** Terms within a tree *)

(** A term and everything below it, in source order. *)
Fixpoint termsWithin (t : ast.Term) : list ast.Term :=
  match t with
  | ast.NewTerm v _ =>
      match v with
      | ast.Ref terms => t :: flat_map termsWithin terms
      | ast.Array elems => t :: flat_map termsWithin elems
      | ast.Call terms => t :: flat_map termsWithin terms
      | _ => [t]
      end
  end.

(** The top-level terms of a body expression that the search looks at. *)
Definition exprTerms (b : ast.Expr) : list ast.Term :=
  match ast.Terms b with
  | ast.SingleTerm t => [t]
  | ast.TermSlice ts => ts
  | ast.SomeDecl _ => []
  end.

(** What the search below [root] can return at [loc]: a variable of the
    tree, or the compound of the first two segments of a chain of the
    tree, a variable and a string with the cursor in either. *)
Definition locatedIn (loc : ast.Location) (t root : ast.Term) : Prop :=
  (exists name, ast.TermValue t = ast.Var name /\ In t (termsWithin root)) \/
  (exists v0 v1 rest l alias field,
     In (ast.NewTerm (ast.Ref (v0 :: v1 :: rest)) l) (termsWithin root) /\
     ast.TermValue v0 = ast.Var alias /\
     ast.TermValue v1 = ast.String field /\
     in_ loc (ast.Loc v0) || in_ loc (ast.Loc v1) = true /\
     t = compoundTerm v0 v1).

(** Every stored module has parser-built rule bodies. *)
Definition wf_store (p : Project) : Prop :=
  forall path module rule,
    modules p !! path = Some (Some module) ->
    In rule (ast.Rules module) ->
    forallb wf_expr (ast.Body rule) = true.

(** ** A second workspace

    [obj.rego]:
<<
package obj
g { o := input; o.name }
>>
    and an import with an alias, [import data.lib as l]. *)
Module Example2.

Definition at_ (offset : Z) (text : string) : ast.Location :=
  {| ast.Text := text; ast.File := "obj.rego"; ast.Row := 2;
     ast.Col := offset - 12 + 1; ast.Offset := offset |}.

Definition o_bound : ast.Term := ast.NewTerm (ast.Var "o") (at_ 16 "o").

Definition input_ref : ast.Term :=
  ast.NewTerm (ast.Ref [ast.NewTerm (ast.Var "input") (at_ 21 "input")])
    (at_ 21 "input").

Definition expr_o : ast.Expr :=
  {| ast.ExprLocation := at_ 16 "o := input";
     ast.Terms :=
       ast.TermSlice
         [ast.NewTerm (ast.Ref [ast.VarTerm "assign"]) (at_ 18 ":=");
          o_bound; input_ref] |}.

Definition o_used : ast.Term := ast.NewTerm (ast.Var "o") (at_ 28 "o").
Definition seg_name : ast.Term :=
  ast.NewTerm (ast.String "name") (at_ 30 "name").

Definition expr_o_name : ast.Expr :=
  {| ast.ExprLocation := at_ 28 "o.name";
     ast.Terms :=
       ast.SingleTerm
         (ast.NewTerm (ast.Ref [o_used; seg_name]) (at_ 28 "o.name")) |}.

Definition rule_g : ast.Rule :=
  {| ast.RuleLocation := at_ 12 "g { o := input; o.name }";
     ast.RuleHead := {| ast.Name := "g"; ast.Args := []; ast.Key := None |};
     ast.Body := [expr_o; expr_o_name] |}.

Definition module_obj : ast.Module :=
  {| ast.ModulePackage :=
       {| ast.PackagePath :=
            [ast.NewTerm (ast.Var "data") (at_ 8 "obj");
             ast.NewTerm (ast.String "obj") (at_ 8 "obj")] |};
     ast.Imports := [];
     ast.Rules := [rule_g] |}.

Definition project : Project :=
  NewProject "." (<["obj.rego" := Some module_obj]> ∅).

Definition cursor (offset : Z) : ast.Location :=
  {| ast.Text := EmptyString; ast.File := "obj.rego"; ast.Row := 2;
     ast.Col := offset - 12 + 1; ast.Offset := offset |}.

(** The same position as [cursor], with another row, column and text. *)
Definition cursor' (offset : Z) : ast.Location :=
  {| ast.Text := "o.name"; ast.File := "obj.rego"; ast.Row := 7;
     ast.Col := 99; ast.Offset := offset |}.

(** A workspace with [lib.rego] for the method lookup. *)
Definition rule_hello : ast.Rule :=
  {| ast.RuleLocation :=
       {| ast.Text := "is_hello { true }"; ast.File := "lib.rego";
          ast.Row := 2; ast.Col := 1; ast.Offset := 12 |};
     ast.RuleHead :=
       {| ast.Name := "is_hello"; ast.Args := []; ast.Key := None |};
     ast.Body := [] |}.

Definition module_lib : ast.Module :=
  {| ast.ModulePackage :=
       {| ast.PackagePath :=
            [ast.NewTerm (ast.Var "data") (at_ 8 "lib");
             ast.NewTerm (ast.String "lib") (at_ 8 "lib")] |};
     ast.Imports := [];
     ast.Rules := [rule_hello] |}.

Definition project_lib : Project :=
  NewProject "."
    (<["main.rego" := Some Example.module_main]>
       (<["policy/lib.rego" := Some module_lib]> ∅)).

End Example2.

(** * Properties *)

(** ** The embedding on the example *)

Example Import_String_lib :
  ast.Import_String Example.import_lib = "import data.lib".
Proof. reflexivity. Qed.

Example importToLabel_lib : importToLabel Example.import_lib = Ok "lib".
Proof. reflexivity. Qed.

Example Term_String_lib_i : ast.Term_String Example.ref_lib_i = "lib.i".
Proof. reflexivity. Qed.

Example in_is_inclusive :
  in_ (Example.cursor 47) (ast.Loc Example.x_bound) = true /\
  in_ (Example.cursor 48) (ast.Loc Example.x_bound) = false.
Proof. split; reflexivity. Qed.

Example searchTargetTerm_on_x :
  searchTargetTerm Example.project (Example.cursor 66)
  = Ok (Some Example.x_used).
Proof. vm_compute. reflexivity. Qed.

Example ListCompletionItems_on_x :
  ListCompletionItems Example.project (Example.cursor 66)
  = Ok [ {| Label := "x"; Kind := VariableItem |} ].
Proof. vm_compute. reflexivity. Qed.

Example listCompletionItemsForTerms_on_x :
  listCompletionItemsForTerms Example.project (Some Example.x_used)
  = Ok [ {| Label := "lib"; Kind := PackageItem |};
         {| Label := "msg"; Kind := VariableItem |};
         {| Label := "x"; Kind := VariableItem |};
         {| Label := "y"; Kind := VariableItem |};
         {| Label := "violation"; Kind := FunctionItem |};
         {| Label := "f"; Kind := FunctionItem |};
         {| Label := "f"; Kind := FunctionItem |} ].
Proof. vm_compute. reflexivity. Qed.

Example LookupDefinition_on_x :
  LookupDefinition Example.project (Example.cursor 66)
  = Ok [ast.Loc Example.x_bound].
Proof. vm_compute. reflexivity. Qed.

Example rules_well_formed :
  forallb wf_rule (ast.Rules Example.module_main) = true.
Proof. reflexivity. Qed.

(** ** The module store *)

(** Completion and definition read the store through [modules] only. *)
Lemma queries_read_modules (p p' : Project) :
  modules p' = modules p ->
  forall location,
    ListCompletionItems p' location = ListCompletionItems p location /\
    LookupDefinition p' location = LookupDefinition p location.
Proof.
  intros Hm location.
  unfold ListCompletionItems, LookupDefinition, findDefinition,
    findDefinitionInModule, findPolicies, getModules, findPolicyRef,
    listCompletionItemsForTerms, searchRuleForTerm, searchTargetTerm,
    GetModule.
  rewrite Hm. split; reflexivity.
Qed.

Section ModuleStoreProps.

Variable ParseModule : string -> string -> ParseResult.
Variable Compile : gmap string (option ast.Module) -> list ast.Error.
Variable ReadFile : string -> outcome string.

(** C1. An edit whose text has syntax errors returns no error, leaves
    every stored module as it was (so completion and definition answer as
    before), and stores the new diagnostics for the path, which
    [GetErrors] then reports: at least one.  An edit whose text parses
    replaces the module of the path and clears its diagnostics. *)
Theorem UpdateFile_keeps_last_good_parse
    (p : Project) (path text : string) (version : Z) :
  let err := fst (UpdateFile ParseModule p path text version) in
  let p' := snd (UpdateFile ParseModule p path text version) in
  (forall es,
     ParseModule path text = SyntaxErrors es -> es <> [] ->
     err = None /\
     modules p' = modules p /\
     GetModule p' path = GetModule p path /\
     errs p' !! path = Some es /\
     GetErrors Compile p' path = es /\
     (1 <= length (GetErrors Compile p' path))%nat /\
     (forall location,
        ListCompletionItems p' location = ListCompletionItems p location /\
        LookupDefinition p' location = LookupDefinition p location)) /\
  (forall module,
     ParseModule path text = Parsed module ->
     err = None /\
     modules p' !! path = Some module /\
     GetModule p' path = module /\
     (forall other, other <> path -> modules p' !! other = modules p !! other) /\
     errs p' !! path = None).
Proof.
  intros err p'. subst err p'. unfold UpdateFile. split.
  - intros es Hparse Hne. rewrite Hparse. simpl.
    assert (Hget : GetErrors Compile
              {| rootPath := rootPath p;
                 openFiles := <[path:={| RowText := text; Version := version |}]>
                                (openFiles p);
                 modules := modules p;
                 errs := <[path:=es]> (errs p) |} path = es).
    { unfold GetErrors. simpl. by rewrite lookup_insert_eq. }
    split_and!.
    + reflexivity.
    + reflexivity.
    + reflexivity.
    + apply lookup_insert_eq.
    + exact Hget.
    + rewrite Hget. destruct es; [congruence | simpl; lia].
    + intros location. by apply queries_read_modules.
  - intros module Hparse. rewrite Hparse. simpl. split_and!.
    + reflexivity.
    + apply lookup_insert_eq.
    + unfold GetModule. simpl. by rewrite lookup_insert_eq.
    + intros other Hother. by rewrite lookup_insert_ne.
    + apply lookup_delete_eq.
Qed.

(** C9. Applying the same edit twice returns what applying it once
    returns and leaves the same store, so every later query (completion,
    definition, diagnostics, raw text) answers the same. *)
Theorem UpdateFile_idempotent
    (p : Project) (path text : string) (version : Z) :
  let once := UpdateFile ParseModule p path text version in
  let twice := UpdateFile ParseModule (snd once) path text version in
  twice = once /\
  (forall location,
     ListCompletionItems (snd twice) location
       = ListCompletionItems (snd once) location /\
     LookupDefinition (snd twice) location
       = LookupDefinition (snd once) location) /\
  (forall q,
     GetErrors Compile (snd twice) q = GetErrors Compile (snd once) q /\
     GetRawText ReadFile (snd twice) q = GetRawText ReadFile (snd once) q).
Proof.
  intros once twice.
  assert (Heq : twice = once).
  { subst once twice. unfold UpdateFile.
    destruct (ParseModule path text) eqn:Hparse; simpl.
    - by rewrite insert_insert_eq, insert_insert_eq, delete_delete_eq.
    - by rewrite !insert_insert_eq.
    - by rewrite insert_insert_eq. }
  rewrite Heq. split_and!; [reflexivity | by intros | by intros].
Qed.

End ModuleStoreProps.

(** C1 on the example: a broken edit of [main.rego] after a good one. *)
Lemma UpdateFile_keeps_last_good_parse_witness :
  let p := snd (UpdateFile Example.parse Example.project
                  "main.rego" "package main" 1) in
  let p' := snd (UpdateFile Example.parse p "main.rego" "package mai" 2) in
  (fst (UpdateFile Example.parse p "main.rego" "package mai" 2) = None /\
   modules p' = modules p /\
   GetModule p' "main.rego" = GetModule p "main.rego" /\
   errs p' !! "main.rego" = Some [Example.syntax_error] /\
   GetErrors Example.compile p' "main.rego" = [Example.syntax_error] /\
   (1 <= length (GetErrors Example.compile p' "main.rego"))%nat /\
   (forall location,
      ListCompletionItems p' location = ListCompletionItems p location /\
      LookupDefinition p' location = LookupDefinition p location)) /\
  (fst (UpdateFile Example.parse Example.project
          "main.rego" "package main" 1) = None /\
   modules p !! "main.rego" = Some (Some Example.module_main) /\
   GetModule p "main.rego" = Some Example.module_main /\
   (forall other, other <> "main.rego" ->
      modules p !! other = modules Example.project !! other) /\
   errs p !! "main.rego" = None).
Proof.
  intros p p'. split.
  - apply (proj1 (UpdateFile_keeps_last_good_parse Example.parse
                    Example.compile p "main.rego" "package mai" 2)
             [Example.syntax_error]).
    + reflexivity.
    + discriminate.
  - apply (proj2 (UpdateFile_keeps_last_good_parse Example.parse
                    Example.compile Example.project
                    "main.rego" "package main" 1)
             (Some Example.module_main)).
    reflexivity.
Defined.

(** ** Scope: the candidates of a rule *)

Lemma bodyBefore_earlier (target : ast.Term) (body : list ast.Expr) (b : ast.Expr) :
  In b (bodyBefore target body) ->
  In b body /\
  ast.Offset (ast.ExprLocation b) < ast.Offset (ast.Loc target).
Proof.
  induction body as [|b0 rest IH]; simpl; [tauto|].
  destruct (ast.Offset (ast.ExprLocation b0) <? ast.Offset (ast.Loc target))
    eqn:Hlt; simpl; [|tauto].
  intros [<- | Hin].
  - split; [by left | by apply Z.ltb_lt].
  - destruct (IH Hin). split; [by right | done].
Qed.

(** The body loop, with its accumulator and its [break], adds the
    candidates of the expressions before the target, in order. *)
Lemma listCompletionItemsInBody_before
    (target : ast.Term) (body : list ast.Expr) :
  forallb wf_expr body = true ->
  forall result,
    listCompletionItemsInBody target body result
    = Ok (result ++ flat_map (exprCandidates target) (bodyBefore target body)).
Proof.
  induction body as [|b rest IH]; intros Hwf result; simpl.
  - by rewrite app_nil_r.
  - simpl in Hwf. apply andb_true_iff in Hwf as [Hb Hrest].
    rewrite Z.leb_antisym.
    destruct (ast.Offset (ast.ExprLocation b) <? ast.Offset (ast.Loc target));
      simpl; [|by rewrite app_nil_r].
    unfold exprCandidates at 1, bindingSide, ast.Operator.
    unfold wf_expr in Hb.
    destruct b as [bl [t | ts | syms]]; simpl in *.
    + rewrite IH by done. by rewrite <- app_assoc.
    + apply andb_true_iff in Hb as [_ Hop].
      destruct ts as [|[[ | | | | op | | | ] ?] operands]; simpl in *;
        try discriminate.
      * by apply IH.
      * fold (isBindingOperator op).
        destruct (isBindingOperator op) eqn:Hbind; simpl in *.
        -- destruct operands as [|t1 ?]; simpl in *; [discriminate|].
           rewrite IH by done. by rewrite <- app_assoc.
        -- by apply IH.
    + by apply IH.
Qed.

Lemma listCompletionItemsInRule_before (target : ast.Term) (rule : ast.Rule) :
  forallb wf_expr (ast.Body rule) = true ->
  listCompletionItemsInRule target rule
  = Ok (headCandidates rule ++
        flat_map (exprCandidates target) (bodyBefore target (ast.Body rule))).
Proof.
  intros Hwf. unfold listCompletionItemsInRule.
  by rewrite listCompletionItemsInBody_before.
Qed.

(** C2. The candidates of a rule are the head key and head arguments,
    always, followed by what the body expressions before the target
    contribute: every body expression that contributes starts at an
    offset strictly below the target's. *)
Theorem candidates_bound_before_target (target : ast.Term) (rule : ast.Rule) :
  forallb wf_expr (ast.Body rule) = true ->
  exists items,
    listCompletionItemsInRule target rule = Ok items /\
    items = headCandidates rule ++
            flat_map (exprCandidates target)
              (bodyBefore target (ast.Body rule)) /\
    (forall item, In item (headCandidates rule) -> In item items) /\
    (forall item,
       In item items ->
       In item (headCandidates rule) \/
       exists b,
         In b (ast.Body rule) /\
         ast.Offset (ast.ExprLocation b) < ast.Offset (ast.Loc target) /\
         In item (exprCandidates target b)).
Proof.
  intros Hwf. eexists. split_and!.
  - by apply listCompletionItemsInRule_before.
  - reflexivity.
  - intros item Hin. apply in_app_iff. by left.
  - intros item Hin. apply in_app_iff in Hin as [Hin | Hin]; [by left|].
    right. apply in_flat_map in Hin as (b & Hb & Hitem).
    apply bodyBefore_earlier in Hb as [Hb Hlt]. by exists b.
Qed.

(** C2 on the example: the candidates for [lib.i] stop before [y := x]. *)
Lemma candidates_bound_before_target_witness :
  forallb wf_expr (ast.Body Example.rule_violation) = true /\
  exists items,
    listCompletionItemsInRule
      (compoundTerm Example.seg_lib Example.seg_i) Example.rule_violation
    = Ok items /\
    items = [ {| Label := "msg"; Kind := VariableItem |};
              {| Label := "x"; Kind := VariableItem |} ].
Proof.
  split; [reflexivity|].
  destruct (candidates_bound_before_target
              (compoundTerm Example.seg_lib Example.seg_i)
              Example.rule_violation) as (items & Hrun & Hitems & _).
  - reflexivity.
  - exists items. split; [exact Hrun|]. rewrite Hitems. reflexivity.
Defined.

(** ** Binding search *)

(** Induction on terms, through the lists of a [Ref], [Array] or [Call]. *)
Lemma Term_nested_ind (P : ast.Term -> Prop) :
  (forall v l, Forall P (subterms v) -> P (ast.NewTerm v l)) ->
  forall t, P t.
Proof.
  intros Hstep. fix IH 1. intros [v l]. apply Hstep.
  destruct v as [ | | | | ts | ts | ts | ]; simpl; try constructor;
    induction ts as [|t ts IHts]; constructor; auto.
Qed.

Lemma find_app_first {A : Type} (f : A -> bool) (l1 l2 : list A) :
  List.find f (l1 ++ l2)
  = match List.find f l1 with
    | Some x => Some x
    | None => List.find f l2
    end.
Proof.
  induction l1 as [|a l1 IH]; simpl; [done|]. by destruct (f a).
Qed.








(** ** The candidates built for a target *)

Lemma LastIndex_from_dot_range (s : string) :
  forall i,
    gostrings.LastIndex_from s "." i = -1 \/
    (i <= gostrings.LastIndex_from s "." i < i + gostrings.len s).
Proof.
  unfold gostrings.len.
  induction s as [|c s IH]; intros i; [by left|].
  cbn [gostrings.LastIndex_from String.length]. rewrite Nat2Z.inj_succ.
  specialize (IH (i + 1)).
  destruct (0 <=? gostrings.LastIndex_from s "." (i + 1)) eqn:Hlater;
    [apply Z.leb_le in Hlater | apply Z.leb_gt in Hlater].
  - right. lia.
  - destruct (String.prefix "." (String.String c s)); [right | left]; lia.
Qed.

(** The slice in [importToLabel] starts one past the last dot, or at 0:
    always within the string. *)
Lemma importToLabel_total (imp : ast.Import) :
  importToLabel imp = Ok (importLabel imp).
Proof.
  unfold importLabel. unfold importToLabel, gostrings.slice_from.
  destruct (negb _); [done|].
  unfold gostrings.LastIndex.
  pose proof (LastIndex_from_dot_range (ast.Import_String imp) 0) as Hr.
  pose proof (Nat2Z.is_nonneg (String.length (ast.Import_String imp))).
  unfold gostrings.len in *.
  destruct (_ && _) eqn:Hb; [done|].
  apply andb_false_iff in Hb as [Hb | Hb];
    [apply Z.leb_gt in Hb | apply Z.leb_gt in Hb]; lia.
Qed.

Lemma listCompletionItemsInTerm_kind (target : ast.Term) :
  forall term,
    Forall (fun item => Kind item = VariableItem)
      (listCompletionItemsInTerm target term).
Proof.
  induction term as [v l IH] using Term_nested_ind.
  assert (Hlist : forall ts,
            Forall (fun t => Forall (fun item => Kind item = VariableItem)
                               (listCompletionItemsInTerm target t)) ts ->
            Forall (fun item => Kind item = VariableItem)
              (flat_map (listCompletionItemsInTerm target) ts)).
  { induction 1; simpl; [constructor | by apply Forall_app]. }
  destruct v as [ | | | name | ts | ts | ts | ]; simpl in *;
    try constructor; try done.
  - destruct ts as [|t0 rest]; [constructor|]. apply Hlist. by inversion IH.
  - by apply Hlist.
Qed.

Lemma listCompletionItemsInRule_kind
    (target : ast.Term) (rule : ast.Rule) (items : list CompletionItem) :
  forallb wf_expr (ast.Body rule) = true ->
  listCompletionItemsInRule target rule = Ok items ->
  Forall (fun item => Kind item = VariableItem) items.
Proof.
  intros Hwf Hrun.
  rewrite (listCompletionItemsInRule_before target rule Hwf) in Hrun.
  injection Hrun as <-.
  apply Forall_app. split.
  - unfold headCandidates. apply Forall_app. split.
    + destruct (ast.Key _); repeat constructor.
    + apply Forall_forall. intros item Hin.
      apply list_elem_of_In, in_map_iff in Hin as (arg & <- & _). done.
  - apply Forall_forall. intros item Hin.
    apply list_elem_of_In, in_flat_map in Hin as (b & _ & Hin).
    unfold exprCandidates in Hin. destruct (bindingSide b); [|done].
    pose proof (listCompletionItemsInTerm_kind target t) as Hk.
    rewrite Forall_forall in Hk. by apply Hk, list_elem_of_In.
Qed.

(** The candidate list is: one Package item per import, then the
    Variable items of the owning rule, then one Function item per rule. *)
Lemma listCompletionItemsForTerms_shape
    (p : Project) (target : ast.Term) (module : ast.Module) :
  GetModule p (ast.File (ast.Loc target)) = Some module ->
  (forall rule, searchRuleForTerm p target = Some rule ->
                forallb wf_expr (ast.Body rule) = true) ->
  exists vars,
    Forall (fun item => Kind item = VariableItem) vars /\
    listCompletionItemsForTerms p (Some target)
    = Ok (List.map (fun imp => {| Label := importLabel imp;
                                  Kind := PackageItem |})
            (ast.Imports module)
          ++ vars
          ++ List.map (fun r => {| Label := ast.Var_String
                                              (ast.Name (ast.RuleHead r));
                                   Kind := FunctionItem |})
               (ast.Rules module)).
Proof.
  intros Hmod Hwf. unfold listCompletionItemsForTerms. rewrite Hmod.
  assert (Himports :
            mapM (fun i => label ← importToLabel i;
                           Ok {| Label := label; Kind := PackageItem |})
              (ast.Imports module)
            = Ok (List.map (fun imp => {| Label := importLabel imp;
                                          Kind := PackageItem |})
                    (ast.Imports module))).
  { induction (ast.Imports module) as [|imp imps IH]; simpl; [done|].
    rewrite importToLabel_total. simpl. rewrite IH. done. }
  rewrite Himports. simpl.
  destruct (searchRuleForTerm p target) as [rule|] eqn:Hrule.
  - specialize (Hwf rule eq_refl).
    pose proof (listCompletionItemsInRule_before target rule Hwf) as Hrun.
    eexists. split.
    + by eapply listCompletionItemsInRule_kind.
    + by rewrite Hrun.
  - exists []. split; [constructor | done].
Qed.

Lemma filter_none {A : Type} (f : A -> bool) (l : list A) :
  Forall (fun x => f x = false) l -> List.filter f l = [].
Proof. induction 1 as [|x l Hx _ IH]; simpl; [done|]. by rewrite Hx. Qed.


Lemma filter_map_length {A B : Type} (f : B -> bool) (g : A -> B) (l : list A) :
  length (List.filter f (List.map g l))
  = length (List.filter (fun x => f (g x)) l).
Proof.
  induction l as [|x l IH]; simpl; [done|].
  destruct (f (g x)); simpl; by rewrite IH.
Qed.




(** C5, as the code has it.  The Function-kind candidates labelled with
    a name are as many as the module has clauses with that head name. *)
Theorem function_candidates_one_per_clause
    (p : Project) (target : ast.Term) (module : ast.Module) (name : string) :
  GetModule p (ast.File (ast.Loc target)) = Some module ->
  (forall rule, searchRuleForTerm p target = Some rule ->
                forallb wf_expr (ast.Body rule) = true) ->
  exists items,
    listCompletionItemsForTerms p (Some target) = Ok items /\
    length (functionCandidates name items)
    = length (clausesNamed name module).
Proof.
  intros Hmod Hwf.
  destruct (listCompletionItemsForTerms_shape p target module Hmod Hwf)
    as (vars & Hvars & Hrun).
  eexists. split; [exact Hrun|].
  unfold functionCandidates, clausesNamed. rewrite !List.filter_app.
  rewrite (filter_none _ (List.map _ (ast.Imports module))).
  - rewrite (filter_none _ vars).
    + simpl. apply filter_map_length.
    + eapply Forall_impl; [exact Hvars|]. intros item Hk. by rewrite Hk.
  - apply Forall_forall. intros item Hin.
    by apply list_elem_of_In, in_map_iff in Hin as (imp & <- & _).
Qed.

Lemma function_candidates_one_per_clause_witness :
  GetModule Example.project (ast.File (ast.Loc Example.x_used))
    = Some Example.module_main /\
  exists items,
    listCompletionItemsForTerms Example.project (Some Example.x_used)
      = Ok items /\
    length (functionCandidates "f" items) = 2%nat.
Proof.
  split; [vm_compute; reflexivity|].
  destruct (function_candidates_one_per_clause Example.project
              Example.x_used Example.module_main "f")
    as (items & Hrun & Hcount).
  - vm_compute; reflexivity.
  - intros rule Hrule. vm_compute in Hrule. injection Hrule as <-.
    reflexivity.
  - exists items. split; [exact Hrun|]. rewrite Hcount. reflexivity.
Defined.

(** C5 fails as stated: [main.rego] has two clauses named [f], and the
    candidates hold two Function items labelled [f]. *)
Lemma function_candidates_not_deduplicated :
  ~ oneCandidatePerNameClaim Example.project Example.x_used.
Proof.
  intros Hclaim.
  destruct (Hclaim Example.module_main "f") as (items & Hrun & Hone).
  - vm_compute; reflexivity.
  - vm_compute. lia.
  - vm_compute in Hrun. injection Hrun as <-.
    vm_compute in Hone. discriminate.
Qed.

(** ** Completion without a target *)

(** When the search finds no term, [ListCompletionItems] passes nil on
    and panics; [LookupDefinition] checks for nil first. *)
Lemma ListCompletionItems_nil_target (p : Project) (location : ast.Location) :
  searchTargetTerm p location = Ok None ->
  ListCompletionItems p location = Panic /\
  LookupDefinition p location = Ok [].
Proof.
  intros Hnone. unfold ListCompletionItems, LookupDefinition.
  by rewrite Hnone.
Qed.

(** C10.  At a cursor in a file without module, at a cursor outside
    every rule and at a cursor on the literal [1], no term is found:
    [ListCompletionItems] panics where an empty list is claimed, while
    [LookupDefinition] returns an empty list. *)
Theorem ListCompletionItems_panics_without_target :
  (searchTargetTerm Example.project Example.cursor_elsewhere = Ok None /\
   ListCompletionItems Example.project Example.cursor_elsewhere = Panic /\
   LookupDefinition Example.project Example.cursor_elsewhere = Ok []) /\
  (searchTargetTerm Example.project (Example.cursor 5) = Ok None /\
   ListCompletionItems Example.project (Example.cursor 5) = Panic /\
   LookupDefinition Example.project (Example.cursor 5) = Ok []) /\
  (searchTargetTerm Example.project (Example.cursor 51) = Ok None /\
   ListCompletionItems Example.project (Example.cursor 51) = Panic /\
   LookupDefinition Example.project (Example.cursor 51) = Ok []).
Proof.
  assert (H1 : searchTargetTerm Example.project Example.cursor_elsewhere
               = Ok None) by (vm_compute; reflexivity).
  assert (H2 : searchTargetTerm Example.project (Example.cursor 5) = Ok None)
    by (vm_compute; reflexivity).
  assert (H3 : searchTargetTerm Example.project (Example.cursor 51) = Ok None)
    by (vm_compute; reflexivity).
  split_and!; try done; by apply ListCompletionItems_nil_target.
Qed.

(** ** Alias resolution *)

(** On imports whose text holds a dot, the resolver returns the first
    import that [suffixMatches]. *)
Lemma findImportOutsidePolicy_first_suffix_match
    (segment : string) (imports : list ast.Import) :
  forallb hasDot imports = true ->
  findImportOutsidePolicy segment imports
  = Ok (List.find (suffixMatches segment) imports).
Proof.
  induction imports as [|imp rest IH]; intros Hdots; simpl; [done|].
  simpl in Hdots. apply andb_true_iff in Hdots as [Hdot Hrest].
  unfold suffixMatches.
  destruct (negb _ && String.eqb segment _); simpl; [done|].
  unfold hasDot, gostrings.LastIndex in Hdot. apply Z.leb_le in Hdot.
  unfold gostrings.slice_from, gostrings.LastIndex.
  pose proof (LastIndex_from_dot_range (ast.Import_String imp) 0) as Hr.
  destruct (_ && _) eqn:Hb.
  - simpl. destruct (gostrings.HasSuffix _ segment); [done | by apply IH].
  - apply andb_false_iff in Hb as [Hb | Hb]; apply Z.leb_gt in Hb; lia.
Qed.

(** C6.  With [import data.xlib] before [import data.lib], the segment
    [lib] is resolved to [data.xlib]: the code tests whether the text from
    the last dot on ends with the segment, where the specification's
    rule (final component equal to the segment) picks [data.lib].  The
    segment [ib] is resolved to [data.lib] where the rule finds nothing,
    and the dotless [import input] makes the slice panic. *)
Theorem findImportOutsidePolicy_matches_by_suffix :
  (findImportOutsidePolicy "lib" [Example.import_xlib; Example.import_lib]
     = Ok (Some Example.import_xlib) /\
   resolveAlias "lib" [Example.import_xlib; Example.import_lib]
     = Some Example.import_lib) /\
  (findImportOutsidePolicy "ib" [Example.import_lib]
     = Ok (Some Example.import_lib) /\
   resolveAlias "ib" [Example.import_lib] = None) /\
  (findImportOutsidePolicy "lib" [Example.import_input] = Panic /\
   resolveAlias "lib" [Example.import_input] = None).
Proof. vm_compute. split_and!; reflexivity. Qed.

(** ** Locating [alias.field] *)



(** ** Filtering *)

Lemma prefix_starts_with (pre s : string) :
  String.prefix pre s = true <-> exists rest, s = pre +:+ rest.
Proof.
  revert s. induction pre as [|a pre IH]; intros [|b s]; cbn.
  - split; [by exists EmptyString | done].
  - split; [by exists (String.String b s) | done].
  - split; [discriminate | intros [rest Hrest]; discriminate].
  - destruct (Ascii.ascii_dec a b) as [-> | Hne].
    + rewrite IH. split; intros [rest Hrest]; exists rest.
      * by rewrite Hrest.
      * by injection Hrest.
    + split; [discriminate | intros [rest Hrest]; by injection Hrest].
Qed.



(** The final segment of [lib.i] is a string literal, and its rendering
    carries the quotes. *)
Remark literal_segment_prefix :
  matchingPrefix (compoundTerm Example.seg_lib Example.seg_i)
  = Some (gostrings.Quote "i").
Proof. reflexivity. Qed.

(** * Further properties of the code *)

(** ** The store under edits and closes *)

Section ModuleStoreMore.

Variable ParseModule : string -> string -> ParseResult.
Variable Compile : gmap string (option ast.Module) -> list ast.Error.
Variable ReadFile : string -> outcome string.

(** X1.  Closing a buffer drops its text and its stored syntax errors and
    nothing else: the module last compiled for the path stays (completion
    and definition answer as before), diagnostics for the path come from
    the compiler again, the raw text is read from the file system again,
    and other buffers are untouched. *)
Theorem DeleteFile_keeps_module (p : Project) (path : string) :
  let p' := DeleteFile p path in
  GetFile p' path = None /\
  modules p' = modules p /\
  GetErrors Compile p' path = Compile (modules p) /\
  GetRawText ReadFile p' path = ReadFile path /\
  (forall location,
     ListCompletionItems p' location = ListCompletionItems p location /\
     LookupDefinition p' location = LookupDefinition p location) /\
  (forall other,
     other <> path ->
     GetFile p' other = GetFile p other /\
     GetErrors Compile p' other = GetErrors Compile p other /\
     GetRawText ReadFile p' other = GetRawText ReadFile p other).
Proof.
  intros p'. subst p'.
  unfold DeleteFile, GetFile, GetErrors, GetRawText, GetFile; simpl.
  split_and!.
  - apply lookup_delete_eq.
  - reflexivity.
  - by rewrite lookup_delete_eq.
  - by rewrite lookup_delete_eq.
  - intros location. by apply queries_read_modules.
  - intros other Hother.
    rewrite !lookup_delete_ne by done. by split_and!.
Qed.

(** X2.  An edit stores the buffer text and version before it parses:
    whatever the parser answers, a fatal error included, the raw text of
    the path is the edited text afterwards; the buffer, module and stored
    errors of every other path are as before. *)
Theorem UpdateFile_stores_overlay
    (p : Project) (path text : string) (version : Z) :
  let p' := snd (UpdateFile ParseModule p path text version) in
  GetFile p' path = Some {| RowText := text; Version := version |} /\
  GetRawText ReadFile p' path = Ok text /\
  (forall other,
     other <> path ->
     GetFile p' other = GetFile p other /\
     GetModule p' other = GetModule p other /\
     errs p' !! other = errs p !! other /\
     GetRawText ReadFile p' other = GetRawText ReadFile p other).
Proof.
  intros p'. subst p'. unfold UpdateFile, GetRawText, GetFile, GetModule.
  destruct (ParseModule path text); simpl;
    rewrite !lookup_insert_eq; (split_and!; [reflexivity | reflexivity |]);
    intros other Hother;
    rewrite ?lookup_insert_ne, ?lookup_delete_ne by done; by split_and!.
Qed.

(** X3.  An edit that parses wipes out whatever an earlier edit of the
    same path left: the store is the one the good edit alone gives, so a
    broken intermediate state leaves no stale diagnostics behind. *)
Theorem UpdateFile_good_edit_overrides
    (p : Project) (path text1 text2 : string) (version1 version2 : Z)
    (module : option ast.Module) :
  ParseModule path text2 = Parsed module ->
  UpdateFile ParseModule
    (snd (UpdateFile ParseModule p path text1 version1)) path text2 version2
  = UpdateFile ParseModule p path text2 version2.
Proof.
  intros Hgood. unfold UpdateFile. rewrite Hgood.
  destruct (ParseModule path text1); simpl.
  - by rewrite !insert_insert_eq, delete_delete_eq.
  - by rewrite insert_insert_eq, delete_insert_eq.
  - by rewrite insert_insert_eq.
Qed.

(** X4.  Edits of two different paths commute: the store does not depend
    on the order in which the two buffers were edited. *)
Theorem UpdateFile_commutes
    (p : Project) (path1 path2 text1 text2 : string) (version1 version2 : Z) :
  path1 <> path2 ->
  snd (UpdateFile ParseModule
         (snd (UpdateFile ParseModule p path1 text1 version1))
         path2 text2 version2)
  = snd (UpdateFile ParseModule
           (snd (UpdateFile ParseModule p path2 text2 version2))
           path1 text1 version1).
Proof.
  intros Hne. unfold UpdateFile.
  assert (Hopen :
            <[path2:={| RowText := text2; Version := version2 |}]>
              (<[path1:={| RowText := text1; Version := version1 |}]>
                 (openFiles p))
            = <[path1:={| RowText := text1; Version := version1 |}]>
                (<[path2:={| RowText := text2; Version := version2 |}]>
                   (openFiles p)))
    by (by apply insert_insert_ne).
  destruct (ParseModule path1 text1), (ParseModule path2 text2); simpl;
    rewrite Hopen; f_equal.
  - by apply insert_insert_ne.
  - by rewrite (delete_delete (errs p)).
  - by rewrite delete_insert_ne.
  - by rewrite delete_insert_ne.
  - by apply insert_insert_ne.
Qed.

End ModuleStoreMore.

Lemma DeleteFile_keeps_module_witness :
  let read := fun _ : string => Err "no such file" in
  let p := snd (UpdateFile Example.parse Example.project
                  "main.rego" "package mai" 1) in
  let p' := DeleteFile p "main.rego" in
  GetErrors Example.compile p "main.rego" = [Example.syntax_error] /\
  GetFile p' "main.rego" = None /\
  modules p' = modules p /\
  GetErrors Example.compile p' "main.rego" = [] /\
  GetRawText read p' "main.rego" = Err "no such file" /\
  ("util.rego" <> "main.rego" ->
   GetFile p' "util.rego" = GetFile p "util.rego").
Proof.
  intros read p p'.
  destruct (DeleteFile_keeps_module Example.compile read p "main.rego")
    as (Hfile & Hmods & Herrs & Hraw & _ & Hother).
  split_and!; [vm_compute; reflexivity | exact Hfile | exact Hmods
              | exact Herrs | exact Hraw |].
  intros Hne. exact (proj1 (Hother "util.rego" Hne)).
Defined.

Lemma UpdateFile_stores_overlay_witness :
  let read := fun _ : string => Err "no such file" in
  let p' := snd (UpdateFile (fun _ _ => ParseFailure "io") Example.project
                   "main.rego" "package mai" 7) in
  GetFile p' "main.rego"
    = Some {| RowText := "package mai"; Version := 7 |} /\
  GetRawText read p' "main.rego" = Ok "package mai" /\
  ("util.rego" <> "main.rego" ->
   GetModule p' "util.rego" = GetModule Example.project "util.rego").
Proof.
  intros read p'.
  destruct (UpdateFile_stores_overlay (fun _ _ => ParseFailure "io") read
              Example.project "main.rego" "package mai" 7)
    as (Hfile & Hraw & Hother).
  split_and!; [exact Hfile | exact Hraw |].
  intros Hne. exact (proj1 (proj2 (Hother "util.rego" Hne))).
Defined.

Lemma UpdateFile_good_edit_overrides_witness :
  Example.parse "main.rego" "package main" = Parsed (Some Example.module_main) /\
  UpdateFile Example.parse
    (snd (UpdateFile Example.parse Example.project "main.rego" "package mai" 1))
    "main.rego" "package main" 2
  = UpdateFile Example.parse Example.project "main.rego" "package main" 2.
Proof.
  split; [reflexivity|].
  apply (UpdateFile_good_edit_overrides Example.parse Example.project
           "main.rego" "package mai" "package main" 1 2
           (Some Example.module_main)).
  reflexivity.
Defined.

Lemma UpdateFile_commutes_witness :
  "main.rego" <> "util.rego" /\
  snd (UpdateFile Example.parse
         (snd (UpdateFile Example.parse Example.project
                 "main.rego" "package mai" 1))
         "util.rego" "package main" 1)
  = snd (UpdateFile Example.parse
           (snd (UpdateFile Example.parse Example.project
                   "util.rego" "package main" 1))
           "main.rego" "package mai" 1).
Proof.
  split; [discriminate|].
  apply (UpdateFile_commutes Example.parse). discriminate.
Defined.

(** ** What the search for the target term returns *)

Lemma searchFirstIn_inv
    (f : ast.Term -> outcome (option ast.Term)) (loc : ast.Location)
    (terms : list ast.Term) (r : outcome (option ast.Term)) :
  searchFirstIn f loc terms = r ->
  (r = Ok None /\ Forall (fun t => in_ loc (ast.Loc t) = false) terms) \/
  (exists t, In t terms /\ in_ loc (ast.Loc t) = true /\ f t = r).
Proof.
  intros <-. induction terms as [|t rest IH]; simpl.
  - left. by split.
  - destruct (in_ loc (ast.Loc t)) eqn:Hin.
    + right. exists t. split_and!; [by left | done | done].
    + destruct IH as [[Hnone Hall] | (t' & Hin' & Hloc & Hf)].
      * left. split; [done | by constructor].
      * right. exists t'. split_and!; [by right | done | done].
Qed.

Lemma searchArray_inv
    (f : ast.Term -> outcome (option ast.Term)) (loc : ast.Location)
    (elems : list ast.Term) (t : ast.Term) :
  searchArray f loc elems = Ok (Some t) ->
  exists e, In e elems /\ f e = Ok (Some t) /\ in_ loc (ast.Loc t) = true.
Proof.
  induction elems as [|e rest IH]; simpl; [discriminate|].
  destruct (f e) as [[t'|] | msg | ] eqn:Hf; try discriminate.
  - destruct (in_ loc (ast.Loc t')) eqn:Hin.
    + intros [= <-]. exists e. split_and!; [by left | done | done].
    + intros Hrest. destruct (IH Hrest) as (e' & He' & Hfe' & Hloc).
      exists e'. split_and!; [by right | done | done].
  - intros Hrest. destruct (IH Hrest) as (e' & He' & Hfe' & Hloc).
    exists e'. split_and!; [by right | done | done].
Qed.

Lemma termsWithin_self (t : ast.Term) : In t (termsWithin t).
Proof. destruct t as [[ | | | | | | | ] l]; simpl; by left. Qed.

Lemma termsWithin_child (v : ast.Value) (l : ast.Location)
    (child x : ast.Term) :
  In child (subterms v) ->
  In x (termsWithin child) ->
  In x (termsWithin (ast.NewTerm v l)).
Proof.
  intros Hchild Hx.
  destruct v; simpl in *; try done;
    right; apply in_flat_map; by exists child.
Qed.

Lemma locatedIn_child (loc : ast.Location) (v : ast.Value) (l : ast.Location)
    (child t : ast.Term) :
  In child (subterms v) ->
  locatedIn loc t child ->
  locatedIn loc t (ast.NewTerm v l).
Proof.
  intros Hchild [(name & Hvar & Hin) | (v0 & v1 & rest & l' & a & f & Hin & H)].
  - left. exists name. split; [done|]. by eapply termsWithin_child.
  - right. exists v0, v1, rest, l', a, f. split; [|done].
    by eapply termsWithin_child.
Qed.

(** The search below a term returns a variable of the tree or the
    compound of a chain of the tree. *)
Lemma searchTargetTermInTerm_located (loc : ast.Location) :
  forall root t,
    searchTargetTermInTerm loc root = Ok (Some t) ->
    locatedIn loc t root.
Proof.
  induction root as [v l IH] using Term_nested_ind. intros t Hrun.
  assert (Hfirst :
            searchFirstIn (searchTargetTermInTerm loc) loc (subterms v)
              = Ok (Some t) ->
            locatedIn loc t (ast.NewTerm v l)).
  { intros Hs.
    apply searchFirstIn_inv in Hs as [[Hs _] | (c & Hc & _ & Hfc)];
      [discriminate|].
    apply (locatedIn_child loc v l c t Hc).
    rewrite Forall_forall in IH. apply IH; [by apply list_elem_of_In | done]. }
  destruct v as [b | n | s | name | ts | ts | ts | ty r]; simpl in *;
    try discriminate.
  - injection Hrun as <-. left. exists name. split; [done | by left].
  - destruct ts as [|v0 [|v1 rest]].
    + discriminate.
    + apply (locatedIn_child loc (ast.Ref [v0]) l v0 t); [by left|].
      inversion IH; subst. by auto.
    + destruct (ast.TermValue v0) as [ | | | alias | | | | ] eqn:Hv0;
        try (apply Hfirst; exact Hrun).
      destruct (ast.TermValue v1) as [ | | field | | | | | ] eqn:Hv1;
        try (apply Hfirst; exact Hrun).
      destruct (in_ loc (ast.Loc v0) || in_ loc (ast.Loc v1)) eqn:Hin;
        [|apply Hfirst; exact Hrun].
      injection Hrun as <-. right.
      exists v0, v1, rest, l, alias, field. split_and!; try done. by left.
  - apply searchArray_inv in Hrun as (e & He & Hfe & _).
    apply (locatedIn_child loc (ast.Array ts) l e t He).
    rewrite Forall_forall in IH. apply IH; [by apply list_elem_of_In | done].
  - apply Hfirst; exact Hrun.
Qed.

Lemma searchTargetTermInBody_located
    (loc : ast.Location) (body : list ast.Expr) (t : ast.Term) :
  searchTargetTermInBody loc body = Ok (Some t) ->
  exists b root,
    In b body /\ in_ loc (ast.ExprLocation b) = true /\
    In root (exprTerms b) /\ locatedIn loc t root.
Proof.
  induction body as [|b rest IH]; simpl; [discriminate|].
  assert (Hrest : searchTargetTermInBody loc rest = Ok (Some t) ->
                  exists b0 root,
                    In b0 (b :: rest) /\ in_ loc (ast.ExprLocation b0) = true /\
                    In root (exprTerms b0) /\ locatedIn loc t root).
  { intros Hr. destruct (IH Hr) as (b0 & root & Hb0 & H).
    exists b0, root. split; [by right | done]. }
  destruct (in_ loc (ast.ExprLocation b)) eqn:Hin; simpl; [|done].
  unfold exprTerms.
  destruct (ast.Terms b) as [t0 | ts | syms] eqn:Hterms; [| |done].
  - intros Hrun. exists b, t0. rewrite Hterms.
    split_and!; [by left | done | by left |].
    by apply searchTargetTermInTerm_located.
  - unfold searchTargetTermInTerms. intros Hrun.
    apply searchFirstIn_inv in Hrun as [[Hrun _] | (c & Hc & _ & Hfc)];
      [discriminate|].
    exists b, c. rewrite Hterms. split_and!; [by left | done | done |].
    by apply searchTargetTermInTerm_located.
Qed.

(** X5.  A located term comes out of the first rule of the file's module
    whose span holds the cursor, out of a body expression of that rule
    whose span holds the cursor; it is a variable occurring in that
    expression, or the compound of the first two segments (a variable,
    then a string, the cursor in one of them) of a chain occurring in it.
    Head terms and literals are never returned. *)
Theorem searchTargetTerm_located
    (p : Project) (loc : ast.Location) (t : ast.Term) :
  searchTargetTerm p loc = Ok (Some t) ->
  exists module rule b root,
    GetModule p (ast.File loc) = Some module /\
    List.find (fun r => in_ loc (ast.RuleLocation r)) (ast.Rules module)
      = Some rule /\
    In b (ast.Body rule) /\
    in_ loc (ast.ExprLocation b) = true /\
    In root (exprTerms b) /\
    locatedIn loc t root.
Proof.
  unfold searchTargetTerm, searchTargetTermInRule.
  destruct (GetModule p (ast.File loc)) as [module|]; [|discriminate].
  destruct (List.find _ (ast.Rules module)) as [rule|] eqn:Hfind;
    [|discriminate].
  intros Hrun.
  destruct (searchTargetTermInBody_located loc _ t Hrun)
    as (b & root & Hb & Hin & Hroot & Hloc).
  by exists module, rule, b, root.
Qed.

Lemma searchTargetTerm_located_witness :
  searchTargetTerm Example.project (Example.cursor 58)
    = Ok (Some (compoundTerm Example.seg_lib Example.seg_i)) /\
  exists module rule b root,
    GetModule Example.project "main.rego" = Some module /\
    List.find (fun r => in_ (Example.cursor 58) (ast.RuleLocation r))
      (ast.Rules module) = Some rule /\
    In b (ast.Body rule) /\
    in_ (Example.cursor 58) (ast.ExprLocation b) = true /\
    In root (exprTerms b) /\
    locatedIn (Example.cursor 58)
      (compoundTerm Example.seg_lib Example.seg_i) root.
Proof.
  split; [vm_compute; reflexivity|].
  apply (searchTargetTerm_located Example.project (Example.cursor 58)).
  vm_compute. reflexivity.
Defined.

(** ** When completion answers *)

Lemma searchFirstIn_no_panic
    (f : ast.Term -> outcome (option ast.Term)) (loc : ast.Location)
    (terms : list ast.Term) :
  Forall (fun t => f t <> Panic) terms ->
  searchFirstIn f loc terms <> Panic.
Proof.
  induction 1 as [|t rest Ht _ IH]; simpl; [done|].
  by destruct (in_ loc (ast.Loc t)).
Qed.

Lemma searchArray_no_panic
    (f : ast.Term -> outcome (option ast.Term)) (loc : ast.Location)
    (elems : list ast.Term) :
  Forall (fun t => f t <> Panic) elems ->
  searchArray f loc elems <> Panic.
Proof.
  induction 1 as [|e rest He _ IH]; simpl; [done|].
  destruct (f e) as [[t|] | msg | ]; try done.
  by destruct (in_ loc (ast.Loc t)).
Qed.

Lemma searchTargetTermInTerm_no_panic (loc : ast.Location) :
  forall root, searchTargetTermInTerm loc root <> Panic.
Proof.
  induction root as [v l IH] using Term_nested_ind.
  pose proof (searchFirstIn_no_panic _ loc _ IH) as Hfirst.
  destruct v as [b | n | s | name | ts | ts | ts | ty r]; simpl in *;
    try done.
  - destruct ts as [|v0 [|v1 rest]]; [done | by inversion IH |].
    destruct (ast.TermValue v0); try exact Hfirst.
    destruct (ast.TermValue v1); try exact Hfirst.
    destruct (in_ loc (ast.Loc v0) || in_ loc (ast.Loc v1));
      [done | exact Hfirst].
  - by apply searchArray_no_panic.
Qed.

Lemma searchTargetTerm_no_panic (p : Project) (loc : ast.Location) :
  searchTargetTerm p loc <> Panic.
Proof.
  unfold searchTargetTerm, searchTargetTermInRule.
  destruct (GetModule p (ast.File loc)) as [module|]; [|done].
  destruct (List.find _ (ast.Rules module)) as [rule|]; [|done].
  induction (ast.Body rule) as [|b rest IH]; simpl; [done|].
  destruct (negb (in_ loc (ast.ExprLocation b))); [done|].
  destruct (ast.Terms b) as [t | ts | syms]; [| |done].
  - apply searchTargetTermInTerm_no_panic.
  - apply searchFirstIn_no_panic, Forall_forall. intros t _.
    apply searchTargetTermInTerm_no_panic.
Qed.

Lemma getTermPrefix_located (loc : ast.Location) (t root : ast.Term) :
  locatedIn loc t root -> exists pre, getTermPrefix t = Ok pre.
Proof.
  unfold getTermPrefix.
  intros [(name & -> & _) | (v0 & v1 & rest & l & a & f & _ & _ & _ & _ & ->)];
    simpl; by eexists.
Qed.

(** X6.  In a store of parser-built modules, [ListCompletionItems] panics
    exactly when the search finds no term; when a term is found it
    returns a list, and an error of the search is passed on. *)
Theorem ListCompletionItems_panics_iff_no_target
    (p : Project) (loc : ast.Location) :
  wf_store p ->
  (ListCompletionItems p loc = Panic <-> searchTargetTerm p loc = Ok None) /\
  (forall t, searchTargetTerm p loc = Ok (Some t) ->
             exists items, ListCompletionItems p loc = Ok items) /\
  (forall msg, searchTargetTerm p loc = Err msg ->
               ListCompletionItems p loc = Err msg).
Proof.
  intros Hwf.
  assert (Hsome : forall t, searchTargetTerm p loc = Ok (Some t) ->
                            exists items, ListCompletionItems p loc = Ok items).
  { intros t Hrun.
    destruct (searchTargetTerm_located p loc t Hrun)
      as (_ & _ & _ & root & _ & _ & _ & _ & _ & Hloc).
    destruct (getTermPrefix_located loc t root Hloc) as (pre & Hpre).
    assert (Hcands : exists cands,
              listCompletionItemsForTerms p (Some t) = Ok cands).
    { destruct (GetModule p (ast.File (ast.Loc t))) as [module|] eqn:Hmod.
      - destruct (listCompletionItemsForTerms_shape p t module Hmod)
          as (vars & _ & Hitems); [|by eexists].
        intros rule Hrule. unfold searchRuleForTerm in Hrule.
        rewrite Hmod in Hrule. apply find_some in Hrule as [Hin _].
        unfold GetModule in Hmod.
        destruct (modules p !! ast.File (ast.Loc t)) as [m|] eqn:Hlook;
          [|discriminate].
        subst m. by eapply Hwf.
      - unfold listCompletionItemsForTerms. rewrite Hmod. by eexists. }
    destruct Hcands as (cands & Hcands).
    unfold ListCompletionItems. rewrite Hrun.
    change (exists items,
              (c ← listCompletionItemsForTerms p (Some t);
               filterCompletionItems (Some t) c) = Ok items).
    rewrite Hcands. simpl. rewrite Hpre. simpl. by eexists. }
  split_and!.
  - split.
    + intros Hpanic.
      destruct (searchTargetTerm p loc) as [[t|] | msg | ] eqn:Hrun.
      * destruct (Hsome t eq_refl) as (items & Hitems). congruence.
      * reflexivity.
      * unfold ListCompletionItems in Hpanic. rewrite Hrun in Hpanic.
        discriminate.
      * by destruct (searchTargetTerm_no_panic p loc).
    + intros Hnone. by apply ListCompletionItems_nil_target.
  - exact Hsome.
  - intros msg Hrun. unfold ListCompletionItems. by rewrite Hrun.
Qed.

Lemma wf_store_example : wf_store Example.project.
Proof.
  intros path module rule Hlook Hin.
  unfold Example.project, NewProject in Hlook. simpl in Hlook.
  rewrite lookup_insert in Hlook. case_decide.
  - injection Hlook as <-.
    pose proof (eq_refl : forallb (fun r => forallb wf_expr (ast.Body r))
                            (ast.Rules Example.module_main) = true) as Hall.
    rewrite forallb_forall in Hall. by apply Hall.
  - rewrite lookup_insert in Hlook. case_decide; [|by rewrite lookup_empty in Hlook].
    injection Hlook as <-. destruct Hin.
Qed.

Lemma ListCompletionItems_panics_iff_no_target_witness :
  (ListCompletionItems Example.project (Example.cursor 51) = Panic <->
   searchTargetTerm Example.project (Example.cursor 51) = Ok None) /\
  (forall t, searchTargetTerm Example.project (Example.cursor 51)
               = Ok (Some t) ->
             exists items,
               ListCompletionItems Example.project (Example.cursor 51)
                 = Ok items) /\
  (forall msg, searchTargetTerm Example.project (Example.cursor 51)
                 = Err msg ->
               ListCompletionItems Example.project (Example.cursor 51)
                 = Err msg).
Proof.
  apply (ListCompletionItems_panics_iff_no_target Example.project
           (Example.cursor 51)).
  exact wf_store_example.
Defined.

(** ** The cursor is read by file and offset only *)

Lemma in_same_offset (loc loc' src : ast.Location) :
  ast.Offset loc = ast.Offset loc' -> in_ loc src = in_ loc' src.
Proof. intros Heq. unfold in_. by rewrite Heq. Qed.

Lemma searchFirstIn_ext
    (f g : ast.Term -> outcome (option ast.Term)) (loc loc' : ast.Location)
    (terms : list ast.Term) :
  ast.Offset loc = ast.Offset loc' ->
  Forall (fun t => f t = g t) terms ->
  searchFirstIn f loc terms = searchFirstIn g loc' terms.
Proof.
  intros Hoff. induction 1 as [|t rest Ht _ IH]; simpl; [done|].
  by rewrite (in_same_offset loc loc' _ Hoff), Ht, IH.
Qed.

Lemma searchArray_ext
    (f g : ast.Term -> outcome (option ast.Term)) (loc loc' : ast.Location)
    (elems : list ast.Term) :
  ast.Offset loc = ast.Offset loc' ->
  Forall (fun t => f t = g t) elems ->
  searchArray f loc elems = searchArray g loc' elems.
Proof.
  intros Hoff. induction 1 as [|e rest He _ IH]; simpl; [done|].
  rewrite He, IH. destruct (g e) as [[t|] | msg | ]; try done.
  by rewrite (in_same_offset loc loc' _ Hoff).
Qed.

Lemma searchTargetTermInTerm_same_offset (loc loc' : ast.Location) :
  ast.Offset loc = ast.Offset loc' ->
  forall root,
    searchTargetTermInTerm loc root = searchTargetTermInTerm loc' root.
Proof.
  intros Hoff. induction root as [v l IH] using Term_nested_ind.
  pose proof (searchFirstIn_ext _ _ loc loc' _ Hoff IH) as Hfirst.
  destruct v as [b | n | s | name | ts | ts | ts | ty r]; simpl in *;
    try done.
  - destruct ts as [|v0 [|v1 rest]]; [done | by inversion IH |].
    destruct (ast.TermValue v0); try exact Hfirst.
    destruct (ast.TermValue v1); try exact Hfirst.
    rewrite (in_same_offset loc loc' (ast.Loc v0) Hoff),
            (in_same_offset loc loc' (ast.Loc v1) Hoff).
    destruct (in_ loc' (ast.Loc v0) || in_ loc' (ast.Loc v1));
      [done | exact Hfirst].
  - by apply searchArray_ext.
Qed.

Lemma searchTargetTerm_same_offset (p : Project) (loc loc' : ast.Location) :
  ast.File loc = ast.File loc' ->
  ast.Offset loc = ast.Offset loc' ->
  searchTargetTerm p loc = searchTargetTerm p loc'.
Proof.
  intros Hfile Hoff. unfold searchTargetTerm, searchTargetTermInRule.
  rewrite Hfile.
  destruct (GetModule p (ast.File loc')) as [module|]; [|done].
  assert (Hfind : List.find (fun r => in_ loc (ast.RuleLocation r))
                    (ast.Rules module)
                  = List.find (fun r => in_ loc' (ast.RuleLocation r))
                      (ast.Rules module)).
  { induction (ast.Rules module) as [|r rest IH]; simpl; [done|].
    by rewrite (in_same_offset loc loc' _ Hoff), IH. }
  rewrite Hfind. clear Hfind.
  destruct (List.find _ (ast.Rules module)) as [rule|]; [|done].
  induction (ast.Body rule) as [|b rest IH]; simpl; [done|].
  rewrite (in_same_offset loc loc' _ Hoff), IH.
  destruct (negb (in_ loc' (ast.ExprLocation b))); [done|].
  destruct (ast.Terms b) as [t | ts | syms]; [| |done].
  - by apply searchTargetTermInTerm_same_offset.
  - apply searchFirstIn_ext; [done|]. apply Forall_forall. intros t _.
    by apply searchTargetTermInTerm_same_offset.
Qed.

(** X7.  Completion and definition read the file and the offset of the
    cursor and nothing else: two cursors with the same file and offset get
    the same answers, whatever their row, column and text. *)
Theorem cursor_read_by_file_and_offset
    (p : Project) (loc loc' : ast.Location) :
  ast.File loc = ast.File loc' ->
  ast.Offset loc = ast.Offset loc' ->
  ListCompletionItems p loc = ListCompletionItems p loc' /\
  LookupDefinition p loc = LookupDefinition p loc'.
Proof.
  intros Hfile Hoff. unfold ListCompletionItems, LookupDefinition.
  by rewrite (searchTargetTerm_same_offset p loc loc' Hfile Hoff), Hfile.
Qed.

Lemma cursor_read_by_file_and_offset_witness :
  Example2.cursor 30 <> Example2.cursor' 30 /\
  ListCompletionItems Example2.project (Example2.cursor 30)
    = ListCompletionItems Example2.project (Example2.cursor' 30) /\
  LookupDefinition Example2.project (Example2.cursor 30)
    = LookupDefinition Example2.project (Example2.cursor' 30).
Proof.
  split; [discriminate|].
  apply (cursor_read_by_file_and_offset Example2.project
           (Example2.cursor 30) (Example2.cursor' 30)); reflexivity.
Defined.

(** ** Definition of a qualified term *)




(** ** Candidates and binding sites *)

Lemma listCompletionItemsInTerm_sites (target : ast.Term) :
  forall t item,
    In item (listCompletionItemsInTerm target t) ->
    exists site name,
      In site (bindingSites t) /\
      ast.TermValue site = ast.Var name /\
      item = {| Label := ast.Var_String name; Kind := VariableItem |}.
Proof.
  induction t as [v l IH] using Term_nested_ind. intros item Hin.
  assert (Hlist : forall ts,
            Forall (fun t => forall item,
                      In item (listCompletionItemsInTerm target t) ->
                      exists site name,
                        In site (bindingSites t) /\
                        ast.TermValue site = ast.Var name /\
                        item = {| Label := ast.Var_String name;
                                  Kind := VariableItem |}) ts ->
            In item (flat_map (listCompletionItemsInTerm target) ts) ->
            exists site name,
              In site (flat_map bindingSites ts) /\
              ast.TermValue site = ast.Var name /\
              item = {| Label := ast.Var_String name; Kind := VariableItem |}).
  { intros ts Hts Hitem. apply in_flat_map in Hitem as (c & Hc & Hitem).
    rewrite Forall_forall in Hts.
    destruct (Hts c (proj2 (list_elem_of_In _ _) Hc) item Hitem)
      as (site & name & Hsite & Hvar & Heq).
    exists site, name. split; [|done]. apply in_flat_map. by exists c. }
  destruct v as [b | n | s | name | ts | ts | ts | ty r]; simpl in *;
    try done.
  - destruct Hin as [<- | []]. exists (ast.NewTerm (ast.Var name) l), name.
    split_and!; [by left | done | done].
  - destruct ts as [|t0 rest]; [done|]. apply Hlist; [|done]. by inversion IH.
  - by apply Hlist.
Qed.

(** X9.  Every variable that completion offers from the body of a rule
    is the name of a binding site of that rule, one that the definition
    search walks over: a candidate is a head candidate, or carries the
    name of a [Var] on the rule's walk. *)
Theorem body_candidates_are_binding_sites
    (target : ast.Term) (rule : ast.Rule) :
  forallb wf_expr (ast.Body rule) = true ->
  exists items,
    listCompletionItemsInRule target rule = Ok items /\
    forall item,
      In item items ->
      In item (headCandidates rule) \/
      exists site name,
        In site (bindingWalk rule) /\
        ast.TermValue site = ast.Var name /\
        item = {| Label := ast.Var_String name; Kind := VariableItem |}.
Proof.
  intros Hwf. eexists. split;
    [by apply listCompletionItemsInRule_before|].
  intros item Hin. apply in_app_iff in Hin as [Hin | Hin]; [by left|].
  right. apply in_flat_map in Hin as (b & Hb & Hitem).
  apply bodyBefore_earlier in Hb as [Hb _].
  unfold exprCandidates in Hitem.
  destruct (bindingSide b) as [t|] eqn:Hside; [|done].
  destruct (listCompletionItemsInTerm_sites target t item Hitem)
    as (site & name & Hsite & Hvar & Heq).
  exists site, name. split; [|done].
  unfold bindingWalk. apply in_app_iff. right. apply in_app_iff. right.
  apply in_flat_map. exists b. split; [done|]. by rewrite Hside.
Qed.

Lemma body_candidates_are_binding_sites_witness :
  forallb wf_expr (ast.Body Example.rule_violation) = true /\
  exists items,
    listCompletionItemsInRule Example.x_used Example.rule_violation
      = Ok items /\
    forall item,
      In item items ->
      In item (headCandidates Example.rule_violation) \/
      exists site name,
        In site (bindingWalk Example.rule_violation) /\
        ast.TermValue site = ast.Var name /\
        item = {| Label := ast.Var_String name; Kind := VariableItem |}.
Proof.
  split; [reflexivity|].
  apply (body_candidates_are_binding_sites Example.x_used
           Example.rule_violation).
  reflexivity.
Defined.

(** ** Labels and resolution of imports *)

Lemma substring_all (s : string) :
  String.substring 0 (String.length s) s = s.
Proof. induction s as [|c s IH]; simpl; [done | by rewrite IH]. Qed.

(** The slice at [k] is the byte at [k] followed by the slice at [k+1]. *)
Lemma substring_step (s : string) :
  forall k,
    (k < String.length s)%nat ->
    exists c,
      String.substring k (String.length s - k) s
      = String.String c
          (String.substring (S k) (String.length s - S k) s).
Proof.
  induction s as [|c s IH]; intros k Hk; simpl in Hk; [lia|].
  destruct k as [|k].
  - exists c. simpl. rewrite Nat.sub_0_r. by rewrite substring_all.
  - destruct (IH k) as (c' & Hc'); [lia|]. exists c'. simpl. exact Hc'.
Qed.

Lemma HasSuffix_tail (c : ascii) (s : string) :
  gostrings.HasSuffix (String.String c s) s = true.
Proof.
  unfold gostrings.HasSuffix, gostrings.len.
  apply andb_true_iff. split.
  - apply Z.leb_le. simpl String.length. lia.
  - replace (String.length (String.String c s) - String.length s)%nat
      with 1%nat by (simpl; lia).
    simpl. rewrite substring_all. apply String.eqb_refl.
Qed.

(** An import passes the resolver's test for its own label. *)
Lemma suffixMatches_own_label (imp : ast.Import) :
  hasDot imp = true -> suffixMatches (importLabel imp) imp = true.
Proof.
  intros Hdot. unfold suffixMatches, importLabel, importToLabel.
  destruct (String.eqb (ast.Var_String (ast.Alias imp)) EmptyString) eqn:Halias;
    simpl.
  - unfold hasDot, gostrings.LastIndex in Hdot. apply Z.leb_le in Hdot.
    unfold gostrings.slice_from, gostrings.LastIndex, gostrings.len.
    pose proof (LastIndex_from_dot_range (ast.Import_String imp) 0) as Hr.
    unfold gostrings.len in Hr.
    set (s := ast.Import_String imp) in *.
    set (r := gostrings.LastIndex_from s "." 0) in *.
    assert (Hlt : 0 <= r < Z.of_nat (String.length s)) by lia.
    replace ((0 <=? r + 1) && (r + 1 <=? Z.of_nat (String.length s)))
      with true by (symmetry; apply andb_true_iff; split; apply Z.leb_le; lia).
    replace ((0 <=? r) && (r <=? Z.of_nat (String.length s)))
      with true by (symmetry; apply andb_true_iff; split; apply Z.leb_le; lia).
    destruct (substring_step s (Z.to_nat r)) as (c & Hc); [lia|].
    replace (Z.to_nat (r + 1)) with (S (Z.to_nat r)) by lia.
    rewrite Hc. apply HasSuffix_tail.
  - by rewrite String.eqb_refl.
Qed.

(** X10.  The label completion shows for an import is resolved back to
    that import by the alias resolver, provided no import listed before
    it passes the resolver's suffix test for the same label (every import
    text holding a dot). *)
Theorem import_label_resolves_to_import
    (before after : list ast.Import) (imp : ast.Import) :
  forallb hasDot (before ++ imp :: after) = true ->
  forallb (fun i => negb (suffixMatches (importLabel imp) i)) before = true ->
  findImportOutsidePolicy (importLabel imp) (before ++ imp :: after)
  = Ok (Some imp).
Proof.
  intros Hdots Hbefore.
  rewrite findImportOutsidePolicy_first_suffix_match by done.
  f_equal. rewrite find_app_first.
  assert (Hnone : List.find (suffixMatches (importLabel imp)) before = None).
  { clear Hdots. induction before as [|i rest IH]; simpl in *; [done|].
    apply andb_true_iff in Hbefore as [Hi Hrest].
    apply negb_true_iff in Hi. rewrite Hi. by apply IH. }
  rewrite Hnone. simpl.
  rewrite suffixMatches_own_label; [done|].
  rewrite forallb_app in Hdots. apply andb_true_iff in Hdots as [_ Hdots].
  simpl in Hdots. by apply andb_true_iff in Hdots as [Hdot _].
Qed.

Lemma import_label_resolves_to_import_witness :
  importLabel Example.import_xlib = "xlib" /\
  findImportOutsidePolicy (importLabel Example.import_xlib)
    ([Example.import_lib] ++ Example.import_xlib :: [])
  = Ok (Some Example.import_xlib).
Proof.
  split; [reflexivity|].
  apply (import_label_resolves_to_import [Example.import_lib] []
           Example.import_xlib); reflexivity.
Defined.

(** ** Method lookup *)

Lemma Index_from_dot_range (s : string) :
  forall i,
    gostrings.Index_from s "." i = -1 \/
    (i <= gostrings.Index_from s "." i < i + gostrings.len s).
Proof.
  unfold gostrings.len.
  induction s as [|c s IH]; intros i; [by left|].
  cbn [gostrings.Index_from String.length]. rewrite Nat2Z.inj_succ.
  destruct (String.prefix "." (String.String c s)); [right; lia|].
  destruct (IH (i + 1)) as [-> | Hr]; [by left | right; lia].
Qed.

Lemma LastIndex_from_none (s : string) :
  forall i,
    0 <= i ->
    gostrings.Index_from s "." i = -1 ->
    gostrings.LastIndex_from s "." i = -1.
Proof.
  induction s as [|c s IH]; intros i Hi Hnone; [done|].
  cbn [gostrings.Index_from gostrings.LastIndex_from] in *.
  destruct (String.prefix "." (String.String c s)); [lia|].
  rewrite (IH (i + 1)) by (done || lia). reflexivity.
Qed.

Lemma slice_from_zero (s : string) : gostrings.slice_from s 0 = Ok s.
Proof.
  unfold gostrings.slice_from, gostrings.len.
  replace ((0 <=? 0) && (0 <=? Z.of_nat (String.length s))) with true
    by (symmetry; apply andb_true_iff; split; apply Z.leb_le; lia).
  change (Z.to_nat 0) with 0%nat. rewrite Nat.sub_0_r.
  by rewrite substring_all.
Qed.

Lemma importFileSuffix_total (imp : ast.Import) :
  exists suffix, importFileSuffix imp = Ok suffix.
Proof.
  unfold importFileSuffix.
  set (impPath := gostrings.ReplaceAll _ _ _).
  destruct (gostrings.HasPrefix impPath "data/") eqn:Hpre; [|by eexists].
  unfold gostrings.HasPrefix in Hpre.
  apply prefix_starts_with in Hpre as (rest & Hrest).
  unfold gostrings.slice_from, gostrings.len. rewrite Hrest.
  replace ((0 <=? 5) && (5 <=? Z.of_nat (String.length ("data/" +:+ rest))))
    with true; [by eexists|].
  symmetry. apply andb_true_iff. split; [done|]. apply Z.leb_le.
  simpl String.length. lia.
Qed.

Lemma rulesNamed_ok (m : option ast.Module) (word path : string) :
  exists rules, rulesNamed m word path = Ok (rules, path).
Proof. destruct m; simpl; by eexists. Qed.

(** X11.  [LookupMethod] panics exactly on a dotted word looked up from a
    path that has no module in the store; on every other input it
    returns, and it never returns an error. *)
Theorem LookupMethod_panics_iff
    (order : list string) (p : Project) (word path : string) :
  (LookupMethod order p word path = Panic <->
   gostrings.Contains word "." = true /\ GetModule p path = None) /\
  (forall msg, LookupMethod order p word path <> Err msg).
Proof.
  unfold LookupMethod.
  destruct (gostrings.Contains word ".") eqn:Hdot.
  - unfold gostrings.Contains in Hdot. apply Z.leb_le in Hdot.
    pose proof (Index_from_dot_range word 0) as Hi.
    pose proof (LastIndex_from_dot_range word 0) as Hl.
    unfold gostrings.slice_to, gostrings.slice_from, gostrings.Index,
      gostrings.LastIndex in *.
    replace ((0 <=? gostrings.Index_from word "." 0)
             && (gostrings.Index_from word "." 0 <=? gostrings.len word))
      with true by (symmetry; apply andb_true_iff; split; apply Z.leb_le; lia).
    replace ((0 <=? gostrings.LastIndex_from word "." 0 + 1)
             && (gostrings.LastIndex_from word "." 0 + 1 <=? gostrings.len word))
      with true by (symmetry; apply andb_true_iff; split; apply Z.leb_le; lia).
    simpl.
    destruct (GetModule p path) as [module|]; [|by split].
    unfold findImportPath.
    destruct (findImportModule _ (ast.Imports module)) as [imp|]; simpl.
    + destruct (importFileSuffix_total imp) as (suffix & ->). simpl.
      match goal with
      | |- context [rulesNamed ?m ?w ?q] =>
          destruct (rulesNamed_ok m w q) as (rules & ->)
      end.
      split; [split; [done | by intros [_ ?]] | done].
    + match goal with
      | |- context [rulesNamed ?m ?w ?q] =>
          destruct (rulesNamed_ok m w q) as (rules & ->)
      end.
      split; [split; [done | by intros [_ ?]] | done].
  - destruct (rulesNamed_ok (GetModule p path) word path) as (rules & ->).
    split; [split; [done | by intros [? _]] | done].
Qed.

Lemma LookupMethod_panics_iff_witness :
  LookupMethod ["main.rego"; "policy/lib.rego"] Example2.project_lib
    "lib.is_hello" "missing.rego" = Panic /\
  LookupMethod ["main.rego"; "policy/lib.rego"] Example2.project_lib
    "is_hello" "missing.rego" = Ok ([], "missing.rego") /\
  LookupMethod ["main.rego"; "policy/lib.rego"] Example2.project_lib
    "lib.is_hello" "main.rego" = Ok ([Example2.rule_hello], "policy/lib.rego").
Proof.
  split.
  - apply (proj1 (LookupMethod_panics_iff ["main.rego"; "policy/lib.rego"]
                    Example2.project_lib "lib.is_hello" "missing.rego")).
    split; vm_compute; reflexivity.
  - split; vm_compute; reflexivity.
Defined.

(** X12.  The rules [LookupMethod] returns are exactly the rules, named
    like the last dot-separated component of the word, of the module the
    store holds under the path it returns (none when it holds no module
    there); for a word without dot that path is the one passed in. *)
Theorem LookupMethod_rules_of_returned_path
    (order : list string) (p : Project) (word path : string)
    (rules : list ast.Rule) (path' : string) :
  LookupMethod order p word path = Ok (rules, path') ->
  rules
  = match GetModule p path' with
    | Some m =>
        List.filter
          (fun r =>
             String.eqb (ast.Var_String (ast.Name (ast.RuleHead r)))
               (lastComponent word))
          (ast.Rules m)
    | None => []
    end /\
  (gostrings.Contains word "." = false -> path' = path).
Proof.
  unfold LookupMethod, lastComponent.
  destruct (gostrings.Contains word ".") eqn:Hdot.
  - destruct (gostrings.slice_to word _) as [w0| |]; simpl; try discriminate.
    destruct (GetModule p path) as [module|]; [|discriminate].
    destruct (findImportPath order _) as [importPath| |]; simpl;
      try discriminate.
    destruct (gostrings.slice_from word _) as [w| |]; simpl; try discriminate.
    unfold rulesNamed.
    destruct (GetModule p importPath) as [m|] eqn:Hm;
      intros [= <- <-]; rewrite Hm; by split.
  - unfold gostrings.Contains in Hdot. apply Z.leb_gt in Hdot.
    pose proof (Index_from_dot_range word 0) as Hi.
    assert (Hlast : gostrings.LastIndex word "." = -1).
    { apply LastIndex_from_none; [lia|].
      unfold gostrings.Index in *. lia. }
    rewrite Hlast. change (-1 + 1) with 0. rewrite slice_from_zero.
    unfold rulesNamed.
    destruct (GetModule p path) as [m|] eqn:Hm;
      intros [= <- <-]; rewrite Hm; by split.
Qed.

Lemma LookupMethod_rules_of_returned_path_witness :
  LookupMethod ["main.rego"; "policy/lib.rego"] Example2.project_lib
    "lib.is_hello" "main.rego" = Ok ([Example2.rule_hello], "policy/lib.rego") /\
  [Example2.rule_hello]
  = match GetModule Example2.project_lib "policy/lib.rego" with
    | Some m =>
        List.filter
          (fun r =>
             String.eqb (ast.Var_String (ast.Name (ast.RuleHead r)))
               (lastComponent "lib.is_hello"))
          (ast.Rules m)
    | None => []
    end /\
  (gostrings.Contains "lib.is_hello" "." = false ->
   "policy/lib.rego" = "main.rego").
Proof.
  split; [vm_compute; reflexivity|].
  apply (LookupMethod_rules_of_returned_path
           ["main.rego"; "policy/lib.rego"] Example2.project_lib
           "lib.is_hello" "main.rego").
  vm_compute. reflexivity.
Defined.

(** ** From an import to a file of the store *)

Lemma find_same_elements {A : Type} (f : A -> bool) (l1 l2 : list A) :
  (forall x, In x l1 <-> In x l2) ->
  (forall x y, In x l1 -> In y l1 -> f x = true -> f y = true -> x = y) ->
  List.find f l1 = List.find f l2.
Proof.
  intros Hsame Hunique.
  destruct (List.find f l1) as [x|] eqn:H1.
  - apply find_some in H1 as [Hx Hfx].
    destruct (List.find f l2) as [y|] eqn:H2.
    + apply find_some in H2 as [Hy Hfy]. f_equal.
      apply Hunique; [done | by apply Hsame | done | done].
    + pose proof (find_none _ _ H2 x (proj1 (Hsame x) Hx)). congruence.
  - destruct (List.find f l2) as [y|] eqn:H2; [|done].
    apply find_some in H2 as [Hy Hfy].
    pose proof (find_none _ _ H1 y (proj2 (Hsame y) Hy)). congruence.
Qed.

(** X13.  For an import, [findImportPath] returns a key of the store
    that ends with the file name built from the import path, or the empty
    string when no key does; when at most one key ends with it, the
    answer is the same for every order in which the map is ranged
    over. *)
Theorem findImportPath_result
    (order : list string) (imp : ast.Import) :
  exists suffix path,
    importFileSuffix imp = Ok suffix /\
    findImportPath order (Some imp) = Ok path /\
    (In path order /\ gostrings.HasSuffix path suffix = true \/
     path = EmptyString /\
     forall key, In key order -> gostrings.HasSuffix key suffix = false) /\
    (forall order',
       (forall key, In key order <-> In key order') ->
       (forall k1 k2,
          In k1 order -> In k2 order ->
          gostrings.HasSuffix k1 suffix = true ->
          gostrings.HasSuffix k2 suffix = true -> k1 = k2) ->
       findImportPath order' (Some imp) = Ok path).
Proof.
  destruct (importFileSuffix_total imp) as (suffix & Hsuffix).
  unfold findImportPath. rewrite Hsuffix. simpl.
  eexists suffix, _. split_and!; [reflexivity | reflexivity | |].
  - destruct (List.find _ order) as [path|] eqn:Hfind.
    + left. by apply find_some in Hfind.
    + right. split; [done|]. intros key Hkey.
      by apply (find_none _ _ Hfind).
  - intros order' Hsame Hunique.
    by rewrite (find_same_elements _ order order' Hsame Hunique).
Qed.

Lemma findImportPath_result_witness :
  findImportPath ["main.rego"; "policy/lib.rego"] (Some Example.import_lib)
    = Ok "policy/lib.rego" /\
  findImportPath ["policy/lib.rego"; "main.rego"] (Some Example.import_lib)
    = Ok "policy/lib.rego" /\
  exists suffix path,
    importFileSuffix Example.import_lib = Ok suffix /\
    findImportPath ["main.rego"; "policy/lib.rego"] (Some Example.import_lib)
      = Ok path /\
    (In path ["main.rego"; "policy/lib.rego"] /\
     gostrings.HasSuffix path suffix = true \/
     path = EmptyString /\
     forall key, In key ["main.rego"; "policy/lib.rego"] ->
                 gostrings.HasSuffix key suffix = false) /\
    (forall order',
       (forall key, In key ["main.rego"; "policy/lib.rego"] <-> In key order') ->
       (forall k1 k2,
          In k1 ["main.rego"; "policy/lib.rego"] ->
          In k2 ["main.rego"; "policy/lib.rego"] ->
          gostrings.HasSuffix k1 suffix = true ->
          gostrings.HasSuffix k2 suffix = true -> k1 = k2) ->
       findImportPath order' (Some Example.import_lib) = Ok path).
Proof.
  split; [vm_compute; reflexivity|]. split; [vm_compute; reflexivity|].
  apply (findImportPath_result ["main.rego"; "policy/lib.rego"]
           Example.import_lib).
Defined.

(** ** The modules of a package *)

(** X14.  The loop of [findPolicies] keeps, in their order, the modules
    whose package path equals the one searched; a nil module among those
    it ranges over makes it panic, whatever the package. *)
Theorem matchingPolicies_filters (packageName : list ast.Term) :
  (forall mods,
     In None mods -> matchingPolicies packageName mods = Panic) /\
  (forall ms,
     matchingPolicies packageName (List.map Some ms)
     = Ok (List.filter
             (fun m =>
                ast.Ref_Equal (ast.PackagePath (ast.ModulePackage m))
                  packageName)
             ms)).
Proof.
  split.
  - induction mods as [|[m|] rest IH]; simpl; [done | | done].
    intros [Hm | Hin]; [discriminate|]. by rewrite IH.
  - induction ms as [|m rest IH]; simpl; [done|]. rewrite IH. simpl.
    by destruct (ast.Ref_Equal _ packageName).
Qed.

Lemma matchingPolicies_filters_witness :
  matchingPolicies Example.pkg_main [Some Example.module_util; None] = Panic /\
  matchingPolicies Example.pkg_main
    (List.map Some [Example.module_util; Example.module_main])
  = Ok [Example.module_main].
Proof.
  split.
  - apply (proj1 (matchingPolicies_filters Example.pkg_main)).
    right. left. reflexivity.
  - rewrite (proj2 (matchingPolicies_filters Example.pkg_main)).
    vm_compute. reflexivity.
Defined.
